(** * Apple Watch MCP server: the health-summary resolution pipeline

    A shallow embedding of the TypeScript sources (index.ts, appleHealth.ts,
    xmlParser.ts) and the properties of the fallback chain, the metric
    extractor, the date window, the live snapshot mapping and the mock
    generator.

    Conventions of the embedding.
    - A JavaScript [number] is an exact rational or [NaN]; binary64 rounding
      and the two infinities are outside the model.
    - A [Date] is its time value: milliseconds since the epoch as an integer,
      or nothing for an Invalid Date.  Local time is the time value shifted
      by the offset the host's zone has in force at that instant, so a
      change of the clocks between two instants is seen.
    - Everything the code obtains from its host (clock, zone, file system,
      Math.random, JSON.parse, xml2js, Date parsing, parseFloat, the number
      of arguments one call accepts) is a field of the record [World]; one
      request sees one world.
    - console.error lines are not modelled. *)

From Stdlib Require Import ZArith QArith Qround Qminmax String List Bool Lia Lqa.
Import ListNotations.

Local Open Scope string_scope.
Local Open Scope Z_scope.

(* ===================================================================== *)
(** ** JavaScript numbers *)
(* ===================================================================== *)

Inductive number : Type :=
| NaN
| Fin (q : Q).

Definition ofZ (z : Z) : number := Fin (inject_Z z).

Definition num_add (a b : number) : number :=
  match a, b with
  | Fin x, Fin y => Fin (x + y)
  | _, _ => NaN
  end.

Definition num_sub (a b : number) : number :=
  match a, b with
  | Fin x, Fin y => Fin (x - y)
  | _, _ => NaN
  end.

Definition num_mul (a b : number) : number :=
  match a, b with
  | Fin x, Fin y => Fin (x * y)
  | _, _ => NaN
  end.

(** [a / b]; every divisor in the sources is a non-zero constant or a
    non-zero array length, a zero divisor (an infinity or NaN in JavaScript)
    is mapped to [NaN]. *)
Definition num_div (a b : number) : number :=
  match a, b with
  | Fin x, Fin y => if Qeq_bool y 0 then NaN else Fin (x / y)
  | _, _ => NaN
  end.

Declare Scope num_scope.
Delimit Scope num_scope with num.
Bind Scope num_scope with number.
Infix "+" := num_add : num_scope.
Infix "-" := num_sub : num_scope.
Infix "*" := num_mul : num_scope.
Infix "/" := num_div : num_scope.
Coercion ofZ : Z >-> number.

(** [a < b] and [a > b]: false as soon as one side is NaN. *)
Definition num_lt (a b : number) : bool :=
  match a, b with
  | Fin x, Fin y => negb (Qle_bool y x)
  | _, _ => false
  end.

Definition num_gt (a b : number) : bool := num_lt b a.

Definition num_le (a b : number) : bool :=
  match a, b with
  | Fin x, Fin y => Qle_bool x y
  | _, _ => false
  end.

Infix "<?" := num_lt : num_scope.
Infix ">?" := num_gt : num_scope.
Infix "<=?" := num_le : num_scope.

(** ToBoolean on a number: 0 and NaN are falsy. *)
Definition truthy (a : number) : bool :=
  match a with
  | Fin x => negb (Qeq_bool x 0)
  | NaN => false
  end.

(** [Math.floor] and [Math.round] (round half up: floor (x + 1/2)). *)
Definition Math_floor (a : number) : number :=
  match a with
  | Fin x => ofZ (Qfloor x)
  | NaN => NaN
  end.

Definition Math_round (a : number) : number :=
  match a with
  | Fin x => ofZ (Qfloor (x + (1 # 2)))
  | NaN => NaN
  end.

Definition num_max (a b : number) : number :=
  match a, b with
  | Fin x, Fin y => if Qle_bool x y then Fin y else Fin x
  | _, _ => NaN
  end.

(** [Math.max(...xs)].  On the empty list JavaScript answers -Infinity,
    which the model has no value for; the one call site is guarded by a
    length test. *)
Definition Math_max (xs : list number) : number :=
  match xs with
  | [] => NaN
  | x :: rest => fold_left num_max rest x
  end.

(** What the properties say about a number. *)
Definition is_finite (a : number) : Prop := exists q, a = Fin q.

Definition nonneg (a : number) : Prop := exists q, a = Fin q /\ (0 <= q)%Q.




Definition lt_num (a b : number) : Prop :=
  exists x y, a = Fin x /\ b = Fin y /\ (x < y)%Q.

(* ===================================================================== *)
(** ** Dates (ECMAScript time values) *)
(* ===================================================================== *)

Module JSDate.

Definition msPerDay : Z := 86400000.
Definition msPerHour : Z := 3600000.
Definition msPerMinute : Z := 60000.
Definition msPerSecond : Z := 1000.

Definition Day (t : Z) : Z := t / msPerDay.
Definition TimeWithinDay (t : Z) : Z := t mod msPerDay.

Definition DayFromYear (y : Z) : Z :=
  365 * (y - 1970) + (y - 1969) / 4 - (y - 1901) / 100 + (y - 1601) / 400.

Definition InLeapYear (y : Z) : bool :=
  ((y mod 4 =? 0) && negb (y mod 100 =? 0)) || (y mod 400 =? 0).

(** YearFromTime of ECMAScript: the largest year that starts no later
    than the day.  It is found from an estimate by the mean length of a
    year (146097 days in 400 years), which is off by at most one year. *)
Definition YearFromDay (d : Z) : Z :=
  let y := 1970 + (d * 400) / 146097 in
  if d <? DayFromYear y then y - 1
  else if DayFromYear (y + 1) <=? d then y + 1
  else y.

Definition YearFromTime (t : Z) : Z := YearFromDay (Day t).

Definition DayWithinYear (t : Z) : Z := Day t - DayFromYear (YearFromTime t).

(** Days of the year before month [m] (0 = January). *)
Definition monthStart (m : Z) (leap : bool) : Z :=
  let l := if leap then 1 else 0 in
  match m with
  | 0 => 0
  | 1 => 31
  | 2 => 59 + l
  | 3 => 90 + l
  | 4 => 120 + l
  | 5 => 151 + l
  | 6 => 181 + l
  | 7 => 212 + l
  | 8 => 243 + l
  | 9 => 273 + l
  | 10 => 304 + l
  | _ => 334 + l
  end.

Definition MonthFromTime (t : Z) : Z :=
  let d := DayWithinYear t in
  let leap := InLeapYear (YearFromTime t) in
  if d <? monthStart 1 leap then 0
  else if d <? monthStart 2 leap then 1
  else if d <? monthStart 3 leap then 2
  else if d <? monthStart 4 leap then 3
  else if d <? monthStart 5 leap then 4
  else if d <? monthStart 6 leap then 5
  else if d <? monthStart 7 leap then 6
  else if d <? monthStart 8 leap then 7
  else if d <? monthStart 9 leap then 8
  else if d <? monthStart 10 leap then 9
  else if d <? monthStart 11 leap then 10
  else 11.

Definition DateFromTime (t : Z) : Z :=
  DayWithinYear t
  - monthStart (MonthFromTime t) (InLeapYear (YearFromTime t)) + 1.

Definition HourFromTime (t : Z) : Z := (t / msPerHour) mod 24.

Definition MakeTime (h m s ms : Z) : Z :=
  h * msPerHour + m * msPerMinute + s * msPerSecond + ms.

Definition MakeDay (year month date : Z) : Z :=
  let ym := year + month / 12 in
  let mn := month mod 12 in
  DayFromYear ym + monthStart mn (InLeapYear ym) + date - 1.

Definition MakeDate (day time : Z) : Z := day * msPerDay + time.

(** [Date.UTC(year, month, date, h, m, s, ms)]. *)
Definition Date_UTC (year month date h m s ms : Z) : Z :=
  MakeDate (MakeDay year month date) (MakeTime h m s ms).

Section Local.
(** The host's zone, ECMAScript's LocalTZA(t, isUTC), in milliseconds:
    [LocalTZA t true] is the offset in force at the time value [t];
    [LocalTZA t false] is the offset by which the local time [t] is read (at
    a change of the clocks a local time may occur twice or not at all, and
    the host decides). *)
Variable LocalTZA : Z -> bool -> Z.

Definition LocalTime (t : Z) : Z := t + LocalTZA t true.
Definition UTC (t : Z) : Z := t - LocalTZA t false.

Definition getDate (t : Z) : Z := DateFromTime (LocalTime t).
Definition getMonth (t : Z) : Z := MonthFromTime (LocalTime t).
Definition getHours (t : Z) : Z := HourFromTime (LocalTime t).

(** [d.setHours(h, m, s, ms)]: the new time value. *)
Definition setHours (t h m s ms : Z) : Z :=
  UTC (MakeDate (Day (LocalTime t)) (MakeTime h m s ms)).

(** [d.setDate(dt)]: the new time value. *)
Definition setDate (t dt : Z) : Z :=
  let lt := LocalTime t in
  UTC (MakeDate (MakeDay (YearFromTime lt) (MonthFromTime lt) dt)
                (TimeWithinDay lt)).
End Local.

End JSDate.

(** A [Date] object: [None] is an Invalid Date. *)
Definition Date : Type := option Z.

Definition getTime (d : Date) : number :=
  match d with
  | Some t => ofZ t
  | None => NaN
  end.

(* ===================================================================== *)
(** ** Data model *)
(* ===================================================================== *)

(** [HealthData] (appleHealth.ts). *)
Record HeartRate : Type := mkHeartRate {
  resting : number;
  average : number;
  max : number
}.

Record HealthData : Type := mkHealthData {
  steps : number;
  heartRate : HeartRate;
  sleepHours : number;
  activeCalories : number;
  workouts : number
}.

(** What the reader hands to its caller under the type [HealthData]: a
    summary, or, when the mock table is read with a key that it only
    inherits from Object.prototype, the inherited member (a function, or
    the prototype itself): a truthy value without any field of a summary. *)
Inductive Summary : Type :=
| Data (healthData : HealthData)
| Inherited (key : string).

Coercion Data : HealthData >-> Summary.

(** The keys every object inherits from Object.prototype. *)
Definition Object_prototype_keys : list string :=
  [ "constructor"; "hasOwnProperty"; "isPrototypeOf"; "propertyIsEnumerable";
    "toLocaleString"; "toString"; "valueOf"; "__proto__";
    "__defineGetter__"; "__defineSetter__"; "__lookupGetter__";
    "__lookupSetter__" ].

(** [HealthRecord] and [WorkoutRecord] (xmlParser.ts): the attribute object
    [$] of a Record or Workout element, every attribute a string. *)
Record HealthRecord : Type := mkHealthRecord {
  type : string;
  value : string;
  unit : option string;
  startDate : string;
  endDate : string;
  sourceName : string
}.

Record WorkoutRecord : Type := mkWorkoutRecord {
  workoutActivityType : string;
  duration : string;
  totalDistance : option string;
  totalEnergyBurned : option string;
  workoutStartDate : string;
  workoutEndDate : string
}.

(** What xml2js hands to the callback: [xmlResult?.HealthData?.Record] and
    [xmlResult?.HealthData?.Workout] may each be missing at any level. *)
Record HealthDataNode : Type := mkHealthDataNode {
  Record_ : option (list HealthRecord);
  Workout : option (list WorkoutRecord)
}.

Definition XmlResult : Type := option (option HealthDataNode).

(** [iPhoneHealthData] (appleHealth.ts): every field optional. *)
Module iPhoneHealthData.
Record t : Type := mk {
  steps : option number;
  heartRate : option number;
  sleepHours : option number;
  activeCalories : option number;
  timestamp : option string
}.
End iPhoneHealthData.

(** The value of [JSON.parse]: [null], a value without own properties
    worth reading (number, string, boolean, array), or an object read
    through the interface [iPhoneHealthData]. *)
Inductive JSONValue : Type :=
| JSONNull
| JSONPrimitive
| JSONObject (d : iPhoneHealthData.t).

(** Errors: what the code throws itself, and what its host throws. *)
Inductive Error : Type :=
| FsError (path : string)              (* thrown by an fs call *)
| SyntaxError                          (* JSON.parse *)
| TypeError                            (* property read on null *)
| RangeError                           (* too many arguments in one call *)
| XmlError                             (* err of xml2js parseString *)
| NotFound                             (* 'export.xml not found' *)
| FileTooLarge (sizeMB : Q)            (* `File too large: ${sizeMB} MB` *)
| ParseTimeout                         (* 'XML parsing timeout' *)
| FailedToParse (cause : Error).       (* `Failed to parse Apple Health data: ${error}` *)

Inductive Outcome (A : Type) : Type :=
| Return (a : A)
| Throw (e : Error).
Arguments Return {A} a.
Arguments Throw {A} e.

(** How the xml2js callback is reached: with an error, with a result, or
    not before the timer of [parseWithTimeout] has fired. *)
Inductive XmlOutcome : Type :=
| XmlErr (e : Error)
| XmlOk (r : XmlResult)
| XmlPending.

(** The host of one request. *)
Record World : Type := mkWorld {
  now : Z;                                     (* new Date() *)
  LocalTZA : Z -> bool -> Z;                   (* zone offset, ms *)
  random : nat -> Q;                           (* k-th Math.random() *)
  existsSync : string -> bool;
  statSync : string -> Outcome Z;              (* stats.size, bytes *)
  readFileSync : string -> Outcome string;
  openSync : string -> Outcome Z;              (* the file handle *)
  readSync : Z -> nat -> Outcome string;       (* the bytes read, from 0 *)
  closeSync : Z -> Outcome Datatypes.unit;
  readdirSync : string -> Outcome (list string);
  JSON_parse : string -> Outcome JSONValue;
  parseString : string -> XmlOutcome;          (* xml2js *)
  Date_parse : string -> Date;                 (* new Date(string) *)
  parseFloat : string -> number;
  spread_limit : Z                             (* arguments one call accepts *)
}.

(** [path.join(dir, name)]. *)
Definition path_join (dir name : string) : string := dir ++ "/" ++ name.

(** [s.includes(sub)]. *)
Definition includes (s sub : string) : bool :=
  match index 0 sub s with
  | Some _ => true
  | None => false
  end.

(** [a || b] on an optional number: the default replaces undefined, 0 and
    NaN. *)
Definition or_default (a : option number) (b : number) : number :=
  match a with
  | Some x => if truthy x then x else b
  | None => b
  end.

Definition length_of {A : Type} (l : list A) : number :=
  ofZ (Z.of_nat (length l)).

(* ===================================================================== *)
(** ** xmlParser.ts: date window and metric extraction *)
(* ===================================================================== *)

Section Extractor.
Variable w : World.

(** [getDateRange]: the pair (startDate, endDate) of time values. *)
Definition getDateRange (timeframe : string) : Z * Z :=
  let tz := LocalTZA w in
  let endDate := JSDate.setHours tz (now w) 23 59 59 999 in
  let startDate := now w in
  let startDate :=
    if String.eqb timeframe "today" then
      JSDate.setHours tz startDate 0 0 0 0
    else if String.eqb timeframe "week" then
      JSDate.setHours tz
        (JSDate.setDate tz startDate (JSDate.getDate tz (now w) - 7)) 0 0 0 0
    else if String.eqb timeframe "month" then
      JSDate.setHours tz
        (JSDate.setDate tz startDate (JSDate.getDate tz (now w) - 30)) 0 0 0 0
    else startDate in
  (startDate, endDate).

(** [recordDate >= startDate && recordDate <= endDate]. *)
Definition in_range (d : Date) (startDate endDate : Z) : bool :=
  (startDate <=? getTime d)%num && (getTime d <=? endDate)%num.

Definition has_type (ty : string) (r : HealthRecord) : bool :=
  String.eqb (type r) ty.

Definition extractSteps (records : list HealthRecord) : number :=
  let stepRecords :=
    filter (has_type "HKQuantityTypeIdentifierStepCount") records in
  fold_left (fun total record => (total + parseFloat w (value record))%num)
            stepRecords (ofZ 0).

(** [records.sort((a, b) => time b - time a)]: a stable sort, here by
    insertion; [a] goes before [b] unless the comparator is positive. *)
Definition sort_compare (a b : HealthRecord) : number :=
  (getTime (Date_parse w (startDate b))
   - getTime (Date_parse w (startDate a)))%num.

Fixpoint sort_insert (a : HealthRecord) (l : list HealthRecord)
  : list HealthRecord :=
  match l with
  | [] => [a]
  | b :: rest =>
      if (sort_compare a b >? 0)%num
      then b :: sort_insert a rest
      else a :: b :: rest
  end.

Definition sort_by_startDate_desc (l : list HealthRecord)
  : list HealthRecord :=
  fold_right sort_insert [] l.

(** [Math.max(...xs)] as a call: the elements are spread into the
    arguments, and a call with more arguments than the engine accepts
    throws a RangeError. *)
Definition Math_max_spread (xs : list number) : Outcome number :=
  if spread_limit w <? Z.of_nat (length xs) then Throw RangeError
  else Return (Math_max xs).

Definition extractHeartRate (records : list HealthRecord) : Outcome HeartRate :=
  let heartRateRecords :=
    filter (has_type "HKQuantityTypeIdentifierHeartRate") records in
  let restingHRRecords :=
    filter (has_type "HKQuantityTypeIdentifierRestingHeartRate") records in
  match heartRateRecords with
  | [] => Return (mkHeartRate (ofZ 60) (ofZ 80) (ofZ 120))
  | _ :: _ =>
      let heartRates := map (fun r => parseFloat w (value r)) heartRateRecords in
      let average :=
        Math_round (fold_left (fun sum hr => sum + hr)%num heartRates (ofZ 0)
                    / length_of heartRates) in
      match Math_max_spread heartRates with
      | Throw e => Throw e
      | Return m =>
          let max := Math_round m in
          let resting :=
            match sort_by_startDate_desc restingHRRecords with
            | [] => ofZ 60
            | first :: _ => Math_round (parseFloat w (value first))
            end in
          Return (mkHeartRate resting average max)
      end
  end.

Definition extractSleep (records : list HealthRecord) : number :=
  let sleepRecords :=
    filter (has_type "HKCategoryTypeIdentifierSleepAnalysis") records in
  match sleepRecords with
  | [] => Fin (15 # 2)
  | _ :: _ =>
      let totalSleepMinutes :=
        fold_left
          (fun total record =>
             let startDate := Date_parse w (startDate record) in
             let endDate := Date_parse w (endDate record) in
             let durationMinutes :=
               ((getTime endDate - getTime startDate) / (1000 * 60)%Z)%num in
             (total + durationMinutes)%num)
          sleepRecords (ofZ 0) in
      (Math_round ((totalSleepMinutes / 60) * 10) / 10)%num
  end.

Definition extractActiveCalories (records : list HealthRecord) : number :=
  let calorieRecords :=
    filter (has_type "HKQuantityTypeIdentifierActiveEnergyBurned") records in
  Math_round
    (fold_left (fun total record => (total + parseFloat w (value record))%num)
               calorieRecords (ofZ 0)).

Definition get_records (xmlResult : XmlResult) : list HealthRecord :=
  match xmlResult with
  | Some (Some node) =>
      match Record_ node with Some l => l | None => [] end
  | _ => []
  end.

Definition get_workouts (xmlResult : XmlResult) : list WorkoutRecord :=
  match xmlResult with
  | Some (Some node) =>
      match Workout node with Some l => l | None => [] end
  | _ => []
  end.

Definition extractHealthMetrics (xmlResult : XmlResult) (timeframe : string)
  : Outcome HealthData :=
  let records := get_records xmlResult in
  let workouts := get_workouts xmlResult in
  let '(startDate_, endDate_) := getDateRange timeframe in
  let filteredRecords :=
    filter (fun record =>
              in_range (Date_parse w (startDate record)) startDate_ endDate_)
           records in
  let filteredWorkouts :=
    filter (fun workout =>
              in_range (Date_parse w (workoutStartDate workout))
                       startDate_ endDate_)
           workouts in
  let steps := extractSteps filteredRecords in
  match extractHeartRate filteredRecords with
  | Throw e => Throw e
  | Return heartRate =>
      let sleep := extractSleep filteredRecords in
      let activeCalories := extractActiveCalories filteredRecords in
      let workoutCount := length_of filteredWorkouts in
      Return (mkHealthData steps heartRate sleep activeCalories workoutCount)
  end.

End Extractor.

(* ===================================================================== *)
(** ** Effects: a trace of host calls, and exceptions *)
(* ===================================================================== *)

(** One entry per call that reaches the file system or a parser. *)
Inductive Event : Type :=
| EvExists (path : string)             (* fs.existsSync *)
| EvStat (path : string)               (* fs.statSync *)
| EvReadFile (path : string)           (* fs.readFileSync: the whole file *)
| EvOpen (path : string)               (* fs.openSync *)
| EvRead (handle : Z) (n : nat)        (* fs.readSync of n bytes from 0 *)
| EvClose (handle : Z)                 (* fs.closeSync *)
| EvReaddir (path : string)            (* fs.readdirSync *)
| EvJSONParse                          (* JSON.parse *)
| EvParseString.                       (* xml2js parseString *)

(** A computation: the calls it made, then its value or the exception it
    threw (a rejected promise, under [await], is a throw). *)
Definition IO (A : Type) : Type := list Event * Outcome A.

Definition ret {A : Type} (a : A) : IO A := ([], Return a).

Definition throw {A : Type} (e : Error) : IO A := ([], Throw e).

Definition bind {A B : Type} (m : IO A) (f : A -> IO B) : IO B :=
  match m with
  | (t, Return a) => let '(t', r) := f a in ((t ++ t')%list, r)
  | (t, Throw e) => (t, Throw e)
  end.

(** [try { m } catch (e) { h e }]. *)
Definition try_catch {A : Type} (m : IO A) (h : Error -> IO A) : IO A :=
  match m with
  | (t, Return a) => (t, Return a)
  | (t, Throw e) => let '(t', r) := h e in ((t ++ t')%list, r)
  end.

Definition call {A : Type} (ev : Event) (o : Outcome A) : IO A := ([ev], o).

(** A step that reaches no host: it returns or throws. *)
Definition pure {A : Type} (o : Outcome A) : IO A := ([], o).

Declare Scope io_scope.
Delimit Scope io_scope with io.
Notation "x <- m ;; k" := (bind m (fun x => k))
  (at level 100, m at next level, right associativity) : io_scope.
Notation "m ;;; k" := (bind m (fun _ => k))
  (at level 100, right associativity) : io_scope.

Definition trace {A : Type} (m : IO A) : list Event := fst m.
Definition outcome {A : Type} (m : IO A) : Outcome A := snd m.

(* ===================================================================== *)
(** ** xmlParser.ts: the reader of the bulk export *)
(* ===================================================================== *)

Record AppleHealthXMLParser : Type := mkParser {
  exportPath : string
}.

Definition MAX_FILE_SIZE_MB : Z := 100.
Definition PARSE_TIMEOUT_MS : Z := 10000.

Section Host.
Variable w : World.

Definition fs_existsSync (p : string) : IO bool :=
  call (EvExists p) (Return (existsSync w p)).
Definition fs_statSync (p : string) : IO Z :=
  call (EvStat p) (statSync w p).
Definition fs_readFileSync (p : string) : IO string :=
  call (EvReadFile p) (readFileSync w p).
Definition fs_openSync (p : string) : IO Z :=
  call (EvOpen p) (openSync w p).
Definition fs_readSync (handle : Z) (n : nat) : IO string :=
  call (EvRead handle n) (readSync w handle n).
Definition fs_closeSync (handle : Z) : IO Datatypes.unit :=
  call (EvClose handle) (closeSync w handle).
Definition fs_readdirSync (p : string) : IO (list string) :=
  call (EvReaddir p) (readdirSync w p).
Definition JSON_parse_ (s : string) : IO JSONValue :=
  call EvJSONParse (JSON_parse w s).

(** [parseWithTimeout]: the promise settles with the first of the
    callback of parseString and the timer; what [extractHealthMetrics]
    throws in the callback rejects the promise as it is. *)
Definition parseWithTimeout (xmlPath timeframe : string) : IO HealthData :=
  (xmlData <- fs_readFileSync xmlPath ;;
   r <- call EvParseString (Return (parseString w xmlData)) ;;
   match r with
   | XmlErr err => throw err
   | XmlOk result => pure (extractHealthMetrics w result timeframe)
   | XmlPending => throw ParseTimeout
   end)%io.

(** [parseHealthData], with the size check and the timeout. *)
Definition parseHealthData (this : AppleHealthXMLParser) (timeframe : string)
  : IO HealthData :=
  try_catch
    (let xmlPath := path_join (exportPath this) "export.xml" in
     ex <- fs_existsSync xmlPath ;;
     if negb ex then throw NotFound
     else
       size <- fs_statSync xmlPath ;;
       let fileSizeMB := (size / 1024 / 1024)%num in
       if (fileSizeMB >? MAX_FILE_SIZE_MB)%num
       then throw (FileTooLarge (inject_Z size / 1024 / 1024)%Q)
       else parseWithTimeout xmlPath timeframe)%io
    (fun error => throw (FailedToParse error)).

(* ===================================================================== *)
(** ** appleHealth.ts: the resolver and its three sources *)
(* ===================================================================== *)

Record AppleHealthReader : Type := mkReader {
  healthDataPath : string;
  iCloudPath : string;
  xmlParser : AppleHealthXMLParser
}.

(** [jsonData.timestamp]: a TypeError on null, undefined on a value that
    is not an object. *)
Definition get_timestamp (jsonData : JSONValue) : IO (option string) :=
  match jsonData with
  | JSONNull => throw TypeError
  | JSONPrimitive => ret None
  | JSONObject d => ret (iPhoneHealthData.timestamp d)
  end.

Definition as_iPhoneHealthData (jsonData : JSONValue)
  : option iPhoneHealthData.t :=
  match jsonData with
  | JSONObject d => Some d
  | _ => None
  end.

(** ToBoolean on an optional string. *)
Definition truthy_string (s : option string) : bool :=
  match s with
  | Some s => negb (String.eqb s "")
  | None => false
  end.

Definition readiPhoneData (this : AppleHealthReader)
  : IO (option iPhoneHealthData.t) :=
  try_catch
    (ex <- fs_existsSync (iCloudPath this) ;;
     if ex then
       data <- fs_readFileSync (iCloudPath this) ;;
       jsonData <- JSON_parse_ data ;;
       ts <- get_timestamp jsonData ;;
       match ts with
       | Some ts_ =>
           if truthy_string ts then
             let dataTime := Date_parse w ts_ in
             let hoursDiff :=
               ((now w - getTime dataTime) / (1000 * 60 * 60)%Z)%num in
             if (hoursDiff <? 24)%num
             then ret (as_iPhoneHealthData jsonData)
             else ret None
           else ret None
       | None => ret None
       end
     else ret None)%io
    (fun _ => ret None).

Definition processiPhoneData (iPhoneData : iPhoneHealthData.t)
  (timeframe : string) : HealthData :=
  let hr := iPhoneHealthData.heartRate iPhoneData in
  let ac := iPhoneHealthData.activeCalories iPhoneData in
  mkHealthData
    (or_default (iPhoneHealthData.steps iPhoneData) 0)
    (mkHeartRate (or_default hr 65 - 10)%num
                 (or_default hr 75)
                 (or_default hr 75 + 60)%num)
    (or_default (iPhoneHealthData.sleepHours iPhoneData) (Fin (15 # 2)))
    (or_default ac 400)
    (if String.eqb timeframe "today"
     then match ac with
          | Some c => if truthy c && (c >? 300)%num then ofZ 1 else ofZ 0
          | None => ofZ 0
          end
     else ofZ 5).

Definition checkForAppleHealthData (this : AppleHealthReader) : IO bool :=
  try_catch
    (let exportPath := path_join (healthDataPath this) "export.xml" in
     exists_ <- fs_existsSync exportPath ;;
     if exists_ then
       _stats <- fs_statSync exportPath ;;
       try_catch
         (handle <- fs_openSync exportPath ;;
          firstChunk <- fs_readSync handle 1000 ;;
          fs_closeSync handle ;;;
          if includes firstChunk "HealthData" && includes firstChunk "<?xml"
          then ret true
          else ret false)
         (fun _ => ret false)
     else
       try_catch
         (dir <- fs_existsSync (healthDataPath this) ;;
          if dir
          then (_items <- fs_readdirSync (healthDataPath this) ;; ret tt)
          else ret tt)
         (fun _ => ret tt) ;;;
       ret exists_)%io
    (fun _ => ret false).

Definition parseAppleHealthData (this : AppleHealthReader)
  (timeframe : string) : IO HealthData :=
  try_catch
    (result <- parseHealthData (xmlParser this) timeframe ;; ret result)%io
    (fun error => throw error).

(** The seed of the mock data, the last version (with the hour) and the
    earlier ones. *)
Definition seed_of_now : Z :=
  JSDate.getDate (LocalTZA w) (now w) + JSDate.getMonth (LocalTZA w) (now w)
  + JSDate.getHours (LocalTZA w) (now w).

Definition seed_of_today : Z :=
  JSDate.getDate (LocalTZA w) (now w) + JSDate.getMonth (LocalTZA w) (now w).

(** [Math.random()], the k-th call of the request. *)
Definition Math_random (k : nat) : number := Fin (random w k).

(** [a % b] keeps the sign of [a]. *)
Definition js_rem (a b : Z) : Z := Z.rem a b.

Definition mockData_today (seed : Z) : HealthData :=
  mkHealthData
    (Math_floor (Math_random 0 * 4000) + 7000 + (seed * 100)%Z)%num
    (mkHeartRate
       (Math_floor (Math_random 1 * 8) + 50 + js_rem seed 5)%num
       (Math_floor (Math_random 2 * 15) + 75 + js_rem seed 8)%num
       (Math_floor (Math_random 3 * 25) + 145 + js_rem seed 10)%num)
    (Math_round ((Math_random 4 * Fin (3 # 2) + 7
                  + js_rem seed 3 * Fin (1 # 5)) * 10) / 10)%num
    (Math_floor (Math_random 5 * 200) + 350 + (seed * 20)%Z)%num
    (if js_rem seed 3 =? 0 then ofZ 1 else ofZ 0).

Definition mockData_week (seed : Z) : HealthData :=
  mkHealthData
    (Math_floor (Math_random 6 * 1500) + 8500 + (seed * 50)%Z)%num
    (mkHeartRate
       (Math_floor (Math_random 7 * 6) + 52 + js_rem seed 4)%num
       (Math_floor (Math_random 8 * 12) + 76 + js_rem seed 6)%num
       (Math_floor (Math_random 9 * 20) + 150 + js_rem seed 8)%num)
    (Math_round ((Math_random 10 * 1 + Fin (71 # 10)
                  + js_rem seed 2 * Fin (3 # 10)) * 10) / 10)%num
    (Math_floor (Math_random 11 * 400) + 2800 + (seed * 30)%Z)%num
    (Math_floor (Math_random 12 * 3) + 4 + js_rem seed 3)%num.

Definition mockData_month (seed : Z) : HealthData :=
  mkHealthData
    (Math_floor (Math_random 13 * 1000) + 9000 + (seed * 25)%Z)%num
    (mkHeartRate
       (Math_floor (Math_random 14 * 4) + 53 + js_rem seed 3)%num
       (Math_floor (Math_random 15 * 8) + 77 + js_rem seed 5)%num
       (Math_floor (Math_random 16 * 15) + 155 + js_rem seed 7)%num)
    (Math_round ((Math_random 17 * Fin (4 # 5) + Fin (73 # 10)
                  + js_rem seed 2 * Fin (1 # 5)) * 10) / 10)%num
    (Math_floor (Math_random 18 * 1500) + 12000 + (seed * 100)%Z)%num
    (Math_floor (Math_random 19 * 5) + 18 + js_rem seed 4)%num.

(** [mockData[timeframe] || mockData.today], for a given seed: the table
    has the three summaries as its own properties, every other key is
    looked up in Object.prototype, and only a key found nowhere gives
    undefined and so the summary of today. *)
Definition mockData (seed : Z) (timeframe : string) : Summary :=
  if String.eqb timeframe "today" then Data (mockData_today seed)
  else if String.eqb timeframe "week" then Data (mockData_week seed)
  else if String.eqb timeframe "month" then Data (mockData_month seed)
  else if existsb (String.eqb timeframe) Object_prototype_keys
  then Inherited timeframe
  else Data (mockData_today seed).

Definition getRealisticMockData (timeframe : string) : Summary :=
  mockData seed_of_now timeframe.

Definition getHealthSummary (this : AppleHealthReader) (timeframe : string)
  : IO Summary :=
  try_catch
    (iPhoneData <- readiPhoneData this ;;
     match iPhoneData with
     | Some iPhoneData => ret (Data (processiPhoneData iPhoneData timeframe))
     | None =>
         hasRealData <- checkForAppleHealthData this ;;
         if hasRealData then
           try_catch
             (result <- parseAppleHealthData this timeframe ;; ret (Data result))
             (fun _ => ret (getRealisticMockData timeframe))
         else ret (getRealisticMockData timeframe)
     end)%io
    (fun _ => ret (getRealisticMockData timeframe)).

End Host.

(* ===================================================================== *)
(** ** index.ts: the get_workout_details tool *)
(* ===================================================================== *)

Record MockWorkout : Type := mkMockWorkout {
  date : string;
  workoutType : string;
  workoutDuration : string;
  distance : option string;
  avgHeartRate : Z;
  maxHeartRate : Z;
  calories : Z;
  pace : option string;
  avgSpeed : option string
}.

Definition mockWorkouts : list MockWorkout :=
  [ mkMockWorkout "2025-07-17" "Running" "32:15" (Some "4.2 miles")
      145 172 320 (Some "7:41 /mile") None;
    mkMockWorkout "2025-07-16" "Strength Training" "45:30" None
      110 140 280 None None;
    mkMockWorkout "2025-07-15" "Cycling" "1:15:22" (Some "18.5 miles")
      135 165 450 None (Some "14.7 mph") ].

(** ToIntegerOrInfinity: NaN is 0, a fraction is cut towards zero. *)
Definition ToIntegerOrInfinity (a : number) : Z :=
  match a with
  | NaN => 0
  | Fin q => Z.quot (Qnum q) (Zpos (Qden q))
  end.

(** [xs.slice(0, end)]: a negative [end] counts from the end. *)
Definition slice_from_0 {A : Type} (xs : list A) (end_ : number) : list A :=
  let len := Z.of_nat (length xs) in
  let relativeEnd := ToIntegerOrInfinity end_ in
  let final :=
    if relativeEnd <? 0 then Z.max (len + relativeEnd) 0
    else Z.min relativeEnd len in
  firstn (Z.to_nat final) xs.

(** [getWorkoutDetails]: the array [workouts]; the response text shows
    [workouts.length] and the JSON text of [workouts]. *)
Definition getWorkoutDetails (args_limit : option number) : list MockWorkout :=
  let limit := or_default args_limit 5 in
  let workouts := slice_from_0 mockWorkouts limit in
  workouts.

(* ===================================================================== *)
(** ** index.ts: the get_health_summary tool *)
(* ===================================================================== *)

(** The response of the tool: the summary text, which prints the
    timeframe and the seven numbers of the summary, or an error text. *)
Inductive Response : Type :=
| SummaryText (timeframe : string) (healthData : HealthData)
| ErrorText (text : string).

(** What the [try] block of the handler has thrown: an Error of its own,
    with its message, or whatever the reader threw. *)
Inductive Thrown : Type :=
| ThrownError (message : string)
| ThrownByReader (e : Error).

(** [['today', 'week', 'month'].includes(timeframe)]. *)
Definition valid_timeframe (timeframe : string) : bool :=
  existsb (String.eqb timeframe) ["today"; "week"; "month"].

(** [getHealthSummary] of the server (the version that validates its
    argument).  [message_of] is [error.message] of an error of the host.
    The handler rejects what the reader returns when it is missing or has
    no [steps]: a summary always has one, an inherited member has none. *)
Definition tool_getHealthSummary (w : World) (message_of : Error -> string)
  (healthReader : AppleHealthReader) (args_timeframe : string)
  : list Event * Response :=
  let attempt : list Event * (Thrown + HealthData) :=
    if negb (valid_timeframe args_timeframe) then
      ([], inl (ThrownError
                  ("Invalid timeframe: " ++ args_timeframe
                   ++ ". Must be 'today', 'week', or 'month'.")))
    else
      match getHealthSummary w healthReader args_timeframe with
      | (t, Return (Data healthData)) => (t, inr healthData)
      | (t, Return (Inherited _)) =>
          (t, inl (ThrownError "Invalid health data received"))
      | (t, Throw e) => (t, inl (ThrownByReader e))
      end in
  match attempt with
  | (t, inr healthData) => (t, SummaryText args_timeframe healthData)
  | (t, inl error) =>
      let message :=
        match error with
        | ThrownError m => m
        | ThrownByReader e => message_of e
        end in
      (t, ErrorText ("Error retrieving health data: " ++ message
                     ++ ". Please check the server logs for more details."))
  end.

(* ===================================================================== *)
(** ** appleHealth.ts: construction of the reader *)
(* ===================================================================== *)

(** [path.join] of several segments; an empty segment is skipped. *)
Definition path_join_all (segments : list string) : string :=
  fold_left (fun acc seg =>
               if String.eqb seg "" then acc
               else if String.eqb acc "" then seg
               else path_join acc seg)
            segments "".

(** [process.env.USERPROFILE || '']. *)
Definition or_empty (v : option string) : string :=
  match v with
  | Some s => s
  | None => ""
  end.

Definition possiblePaths (USERPROFILE : option string) : list string :=
  [ "C:\Users\rt\Documents\apple_health_export\apple_health_export";
    "C:\Users\rt\Documents\apple_health_export";
    path_join_all [or_empty USERPROFILE; "Documents"; "apple_health_export";
                   "apple_health_export"];
    path_join_all [or_empty USERPROFILE; "Documents"; "apple_health_export"];
    path_join_all [or_empty USERPROFILE; "Downloads"; "apple_health_export"];
    path_join_all [or_empty USERPROFILE; "Desktop"; "apple_health_export"] ].

(** The loop of [findCorrectHealthPath]: the first path that holds
    export.xml, if there is one. *)
Fixpoint first_with_export (w : World) (paths : list string)
  : IO (option string) :=
  match paths with
  | [] => ret None
  | testPath :: rest =>
      (found <- fs_existsSync w (path_join testPath "export.xml") ;;
       if found then ret (Some testPath) else first_with_export w rest)%io
  end.

Definition findCorrectHealthPath (w : World) (USERPROFILE : option string)
  : IO string :=
  (hit <- first_with_export w (possiblePaths USERPROFILE) ;;
   match hit with
   | Some testPath => ret testPath
   | None => ret (hd "" (possiblePaths USERPROFILE))
   end)%io.

(** [new AppleHealthReader(healthDataPath?)]: an empty path counts as none. *)
Definition new_AppleHealthReader (w : World) (USERPROFILE : option string)
  (healthDataPath : option string) : IO AppleHealthReader :=
  (path <- match healthDataPath with
           | Some p => if String.eqb p "" then findCorrectHealthPath w USERPROFILE
                       else ret p
           | None => findCorrectHealthPath w USERPROFILE
           end ;;
   ret (mkReader path
          (path_join_all [or_empty USERPROFILE; "iCloudDrive"; "health-data.json"])
          (mkParser path)))%io.

Definition setHealthDataPath (this : AppleHealthReader) (path : string)
  : AppleHealthReader :=
  mkReader path (iCloudPath this) (mkParser path).

Definition setiCloudPath (this : AppleHealthReader) (path : string)
  : AppleHealthReader :=
  mkReader (healthDataPath this) path (xmlParser this).

(* ===================================================================== *)
(** ** Earlier versions of the same files *)
(* ===================================================================== *)

(** appleHealth.ts before the XML parser existed: the export is looked
    for, and mock data is returned in either case. *)
Module V1.
Section V1.
Variable w : World.
Variable healthDataPath : string.

Definition checkForAppleHealthData : IO bool :=
  try_catch
    (let exportPath := path_join healthDataPath "export.xml" in
     fs_existsSync w exportPath)
    (fun _ => ret false).

Definition getRealisticMockData (timeframe : string) : Summary :=
  mockData w (seed_of_today w) timeframe.

Definition parseAppleHealthData (timeframe : string) : IO Summary :=
  ret (getRealisticMockData timeframe).

Definition getHealthSummary (timeframe : string) : IO Summary :=
  try_catch
    (hasRealData <- checkForAppleHealthData ;;
     if hasRealData then parseAppleHealthData timeframe
     else ret (getRealisticMockData timeframe))%io
    (fun _ => ret (getRealisticMockData timeframe)).

End V1.
End V1.

(** appleHealth.ts with the snapshot and the parser, before the header
    check: the existence of export.xml decides, and a failure of the parser
    is turned into mock data where it happens. *)
Module V2.
Section V2.
Variable w : World.
Variable this : AppleHealthReader.

Definition getRealisticMockData (timeframe : string) : Summary :=
  mockData w (seed_of_today w) timeframe.

Definition checkForAppleHealthData : IO bool :=
  try_catch
    (let exportPath := path_join (healthDataPath this) "export.xml" in
     fs_existsSync w exportPath)
    (fun _ => ret false).

Definition parseAppleHealthData (timeframe : string) : IO Summary :=
  try_catch
    (result <- parseHealthData w (xmlParser this) timeframe ;; ret (Data result))%io
    (fun _ => ret (getRealisticMockData timeframe)).

Definition getHealthSummary (timeframe : string) : IO Summary :=
  try_catch
    (iPhoneData <- readiPhoneData w this ;;
     match iPhoneData with
     | Some iPhoneData => ret (Data (processiPhoneData iPhoneData timeframe))
     | None =>
         hasRealData <- checkForAppleHealthData ;;
         if hasRealData then parseAppleHealthData timeframe
         else ret (getRealisticMockData timeframe)
     end)%io
    (fun _ => ret (getRealisticMockData timeframe)).

(** This setter leaves the parser on the directory it was built with. *)
Definition setHealthDataPath (path : string) : AppleHealthReader :=
  mkReader path (iCloudPath this) (xmlParser this).

End V2.
End V2.

(** xmlParser.ts before the size ceiling and the timeout.  The promise of
    the parse is returned from the [try] block without [await]: what is
    thrown before it exists is caught and wrapped, its own rejection (with
    the error of xml2js, or with what [extractHealthMetrics] throws in
    the callback) is not, and it stays pending when xml2js never calls
    back ([None]). *)
Module Draft.

Definition parseHealthData (w : World) (this : AppleHealthXMLParser)
  (timeframe : string) : list Event * option (Outcome HealthData) :=
  let xmlPath := path_join (exportPath this) "export.xml" in
  match try_catch
          (found <- fs_existsSync w xmlPath ;;
           if negb found then throw NotFound
           else fs_readFileSync w xmlPath)%io
          (fun error => throw (FailedToParse error))
  with
  | (t, Throw e) => (t, Some (Throw e))
  | (t, Return xmlData) =>
      ((t ++ [EvParseString])%list,
       match parseString w xmlData with
       | XmlErr err => Some (Throw err)
       | XmlOk result => Some (extractHealthMetrics w result timeframe)
       | XmlPending => None
       end)
  end.

End Draft.

(* ===================================================================== *)
(** ** Vocabulary of the properties *)
(* ===================================================================== *)


(** All fields are numbers and none is negative. *)
Definition nonneg_summary (h : HealthData) : Prop :=
  nonneg (steps h) /\ nonneg (activeCalories h) /\ nonneg (workouts h) /\
  nonneg (sleepHours h) /\ nonneg (resting (heartRate h)) /\
  nonneg (average (heartRate h)) /\ nonneg (max (heartRate h)).

(** The five record types the extractor aggregates. *)
Definition StepCount : string := "HKQuantityTypeIdentifierStepCount".
Definition HeartRate_ : string := "HKQuantityTypeIdentifierHeartRate".
Definition RestingHeartRate : string := "HKQuantityTypeIdentifierRestingHeartRate".
Definition SleepAnalysis : string := "HKCategoryTypeIdentifierSleepAnalysis".
Definition ActiveEnergyBurned : string := "HKQuantityTypeIdentifierActiveEnergyBurned".

(** A record that feeds none of steps, heart rate, sleep and calories. *)
Definition no_metric_record (r : HealthRecord) : Prop :=
  type r <> StepCount /\ type r <> HeartRate_ /\
  type r <> SleepAnalysis /\ type r <> ActiveEnergyBurned.



(** Resting below average below max. *)
Definition heartRate_ordered (h : HealthData) : Prop :=
  lt_num (resting (heartRate h)) (average (heartRate h)) /\
  lt_num (average (heartRate h)) (max (heartRate h)).

(** A field of the snapshot that [||] replaces: missing, 0 or NaN. *)
Definition missing_or_zero (a : option number) : Prop :=
  a = None \/ exists x, a = Some x /\ truthy x = false.

(** A field of the snapshot that [||] keeps. *)
Definition present (a : option number) (q : Q) : Prop :=
  a = Some (Fin q) /\ ~ (q == 0)%Q.

(** The mapping of the live snapshot as the specification words it: a
    missing field takes its default (steps 0, heartRate 75, sleepHours 7.5,
    activeCalories 400), the triple is heartRate - 10, heartRate,
    heartRate + 60, the workout count is 1 for today with activeCalories
    above 300, 0 for today otherwise, and 5 for another timeframe. *)
Definition or_missing (a : option number) (b : number) : number :=
  match a with
  | Some x => x
  | None => b
  end.

Definition reference_mapping (d : iPhoneHealthData.t) (timeframe : string)
  : HealthData :=
  let hr := or_missing (iPhoneHealthData.heartRate d) 75 in
  mkHealthData
    (or_missing (iPhoneHealthData.steps d) 0)
    (mkHeartRate (hr - 10)%num hr (hr + 60)%num)
    (or_missing (iPhoneHealthData.sleepHours d) (Fin (15 # 2)))
    (or_missing (iPhoneHealthData.activeCalories d) 400)
    (if String.eqb timeframe "today"
     then match iPhoneHealthData.activeCalories d with
          | Some c => if (c >? 300)%num then ofZ 1 else ofZ 0
          | None => ofZ 0
          end
     else ofZ 5).

(** The snapshot file is there, readable, an object, and its timestamp is
    less than 24 hours before now. *)
Definition fresh_snapshot (w : World) (this : AppleHealthReader)
  (d : iPhoneHealthData.t) : Prop :=
  existsSync w (iCloudPath this) = true /\
  exists data ts t,
    readFileSync w (iCloudPath this) = Return data /\
    JSON_parse w data = Return (JSONObject d) /\
    iPhoneHealthData.timestamp d = Some ts /\ ts <> "" /\
    Date_parse w ts = Some t /\
    now w - t < 24 * JSDate.msPerHour.

(** The ways a snapshot is not available: no file, a file that cannot be
    read, a text that is not JSON, an object without timestamp, a
    timestamp more than 24 hours old. *)
Inductive snapshot_unavailable (w : World) (this : AppleHealthReader) : Prop :=
| unavailable_absent :
    existsSync w (iCloudPath this) = false ->
    snapshot_unavailable w this
| unavailable_unreadable e :
    readFileSync w (iCloudPath this) = Throw e ->
    snapshot_unavailable w this
| unavailable_not_json data e :
    readFileSync w (iCloudPath this) = Return data ->
    JSON_parse w data = Throw e ->
    snapshot_unavailable w this
| unavailable_no_timestamp data d :
    readFileSync w (iCloudPath this) = Return data ->
    JSON_parse w data = Return (JSONObject d) ->
    iPhoneHealthData.timestamp d = None ->
    snapshot_unavailable w this
| unavailable_stale data d ts t :
    readFileSync w (iCloudPath this) = Return data ->
    JSON_parse w data = Return (JSONObject d) ->
    iPhoneHealthData.timestamp d = Some ts ->
    Date_parse w ts = Some t ->
    24 * JSDate.msPerHour < now w - t ->
    snapshot_unavailable w this.

(** An event that reads the whole of a file or runs the XML parser. *)
Definition full_parse_event (e : Event) : bool :=
  match e with
  | EvReadFile _ | EvParseString => true
  | _ => false
  end.

(** An event about the snapshot file (or the JSON parser). *)
Definition snapshot_event (this : AppleHealthReader) (e : Event) : bool :=
  match e with
  | EvExists p | EvReadFile p => String.eqb p (iCloudPath this)
  | EvJSONParse => true
  | _ => false
  end.

(** The local time that the host shows at the time value [t]. *)
Definition local (w : World) (t : Z) : Z := JSDate.LocalTime (LocalTZA w) t.

(** The local time [x] is on the clock of the zone: set as a local time
    and shown again, it is [x] (it is not skipped by a change of the
    clocks). *)
Definition on_the_clock (w : World) (x : Z) : Prop :=
  local w (JSDate.UTC (LocalTZA w) x) = x.

(** No two offsets of the zone are a day or more apart. *)
Definition zone_steady (w : World) : Prop :=
  forall t t' b b', LocalTZA w t b - LocalTZA w t' b' < JSDate.msPerDay.

(** Local times around now: midnight of the day [k] days before the day
    of now, the time of day of now on that day, and the last millisecond
    of the day of now. *)
Definition midnight_before (w : World) (k : Z) : Z :=
  (JSDate.Day (local w (now w)) - k) * JSDate.msPerDay.

Definition same_time_before (w : World) (k : Z) : Z :=
  midnight_before w k + JSDate.TimeWithinDay (local w (now w)).

Definition end_of_today (w : World) : Z := midnight_before w 0 + 86399999.

(** The same host in another zone. *)
Definition set_zone (w : World) (tz : Z -> bool -> Z) : World :=
  mkWorld (now w) tz (random w) (existsSync w) (statSync w) (readFileSync w)
          (openSync w) (readSync w) (closeSync w) (readdirSync w)
          (JSON_parse w) (parseString w) (Date_parse w) (parseFloat w)
          (spread_limit w).

(** The same host with an engine that accepts [n] arguments in one call. *)
Definition set_spread_limit (w : World) (n : Z) : World :=
  mkWorld (now w) (LocalTZA w) (random w) (existsSync w) (statSync w)
          (readFileSync w) (openSync w) (readSync w) (closeSync w)
          (readdirSync w) (JSON_parse w) (parseString w) (Date_parse w)
          (parseFloat w) n.

(** The same host at another instant. *)
Definition set_now (w : World) (t : Z) : World :=
  mkWorld t (LocalTZA w) (random w) (existsSync w) (statSync w) (readFileSync w)
          (openSync w) (readSync w) (closeSync w) (readdirSync w)
          (JSON_parse w) (parseString w) (Date_parse w) (parseFloat w)
          (spread_limit w).

(** The same host with other results of Math.random. *)
Definition set_random (w : World) (r : nat -> Q) : World :=
  mkWorld (now w) (LocalTZA w) r (existsSync w) (statSync w) (readFileSync w)
          (openSync w) (readSync w) (closeSync w) (readdirSync w)
          (JSON_parse w) (parseString w) (Date_parse w) (parseFloat w)
          (spread_limit w).

Definition to_Q (a : number) : Q :=
  match a with
  | Fin q => q
  | NaN => 0
  end.

(** The mean of [f] over the sample [D] of equally likely draws. *)
Definition mean (D : list Q) (f : Q -> Q) : Q :=
  (fold_right Qplus 0 (map f D) / inject_Z (Z.of_nat (length D)))%Q.

(** The expected value of one field of the mock summary when each call of
    Math.random is drawn from [D]: every field reads one call only, so the
    field is averaged over that call. *)
Definition read_field (field : HealthData -> number) (s : Summary) : number :=
  match s with
  | Data h => field h
  | Inherited _ => NaN
  end.

Definition expected (D : list Q) (w : World) (seed : Z) (timeframe : string)
  (field : HealthData -> number) : Q :=
  mean D (fun u => to_Q (read_field field
                           (mockData (set_random w (fun _ => u))
                                     seed timeframe))).

Definition unit_draws (D : list Q) : Prop :=
  D <> [] /\ forall u, In u D -> (0 <= u)%Q /\ (u < 1)%Q.

(* ===================================================================== *)
(** ** Example hosts *)
(* ===================================================================== *)

Definition icloud_file : string := "/Users/rt/iCloudDrive/health-data.json".
Definition export_dir : string := "/Users/rt/Documents/apple_health_export".
Definition export_file : string := path_join export_dir "export.xml".

Definition demo_reader : AppleHealthReader :=
  mkReader export_dir icloud_file (mkParser export_dir).

(** 2025-07-18T15:00:00Z and 2025-07-18T16:00:00Z. *)
Definition july18_15h : Z := 1752850800000.
Definition july18_16h : Z := 1752854400000.

Definition demo_dates (s : string) : Date :=
  if String.eqb s "2025-07-18T10:30:00Z" then Some 1752834600000
  else if String.eqb s "2025-07-18T07:00:00Z" then Some 1752822000000
  else if String.eqb s "2025-07-17T23:00:00Z" then Some 1752793200000
  else if String.eqb s "2025-07-16T10:30:00Z" then Some 1752661800000
  else None.

Definition demo_floats (s : string) : number :=
  if String.eqb s "8420" then ofZ 8420
  else if String.eqb s "-250" then ofZ (-250)
  else if String.eqb s "72" then ofZ 72
  else if String.eqb s "95" then ofZ 95
  else if String.eqb s "58" then ofZ 58
  else if String.eqb s "310.4" then Fin (1552 # 5)
  else NaN.

(** The snapshot of the README, and the same one two days old. *)
Definition snapshot_fresh : iPhoneHealthData.t :=
  iPhoneHealthData.mk (Some (ofZ 8420)) (Some (ofZ 75)) (Some (Fin (15 # 2)))
                      (Some (ofZ 450)) (Some "2025-07-18T10:30:00Z").

Definition snapshot_stale : iPhoneHealthData.t :=
  iPhoneHealthData.mk (Some (ofZ 8420)) (Some (ofZ 75)) (Some (Fin (15 # 2)))
                      (Some (ofZ 450)) (Some "2025-07-16T10:30:00Z").

(** A snapshot taken early in the day: nothing burned, nothing slept. *)
Definition snapshot_early : iPhoneHealthData.t :=
  iPhoneHealthData.mk (Some (ofZ 120)) (Some (ofZ 58)) (Some (ofZ 0))
                      (Some (ofZ 0)) (Some "2025-07-18T07:00:00Z").

(** A snapshot without a heart rate. *)
Definition snapshot_no_heartRate : iPhoneHealthData.t :=
  iPhoneHealthData.mk (Some (ofZ 8420)) None (Some (Fin (15 # 2)))
                      (Some (ofZ 450)) (Some "2025-07-18T10:30:00Z").

(** A snapshot with a heart rate of 8. *)
Definition snapshot_faint : iPhoneHealthData.t :=
  iPhoneHealthData.mk (Some (ofZ 8420)) (Some (ofZ 8)) (Some (Fin (15 # 2)))
                      (Some (ofZ 450)) (Some "2025-07-18T10:30:00Z").

Definition demo_json (s : string) : Outcome JSONValue :=
  if String.eqb s "fresh" then Return (JSONObject snapshot_fresh)
  else if String.eqb s "stale" then Return (JSONObject snapshot_stale)
  else if String.eqb s "faint" then Return (JSONObject snapshot_faint)
  else if String.eqb s "null" then Return JSONNull
  else Throw SyntaxError.

Definition record_of (ty v s e : string) : HealthRecord :=
  mkHealthRecord ty v None s e "Apple Watch".

Definition export_plausible : XmlResult :=
  Some (Some (mkHealthDataNode
    (Some [ record_of StepCount "8420"
              "2025-07-18T07:00:00Z" "2025-07-18T10:30:00Z";
            record_of HeartRate_ "72"
              "2025-07-18T07:00:00Z" "2025-07-18T07:00:00Z";
            record_of HeartRate_ "95"
              "2025-07-18T10:30:00Z" "2025-07-18T10:30:00Z";
            record_of RestingHeartRate "58"
              "2025-07-18T07:00:00Z" "2025-07-18T07:00:00Z";
            record_of ActiveEnergyBurned "310.4"
              "2025-07-18T07:00:00Z" "2025-07-18T10:30:00Z";
            record_of SleepAnalysis "HKCategoryValueSleepAnalysisAsleep"
              "2025-07-17T23:00:00Z" "2025-07-18T07:00:00Z" ])
    (Some [ mkWorkoutRecord "HKWorkoutActivityTypeRunning" "32" None None
              "2025-07-18T07:00:00Z" "2025-07-18T10:30:00Z" ]))).

(** An export whose one step record carries a negative value. *)
Definition export_negative : XmlResult :=
  Some (Some (mkHealthDataNode
    (Some [ record_of StepCount "-250"
              "2025-07-18T07:00:00Z" "2025-07-18T10:30:00Z" ])
    None)).

Definition export_empty : XmlResult :=
  Some (Some (mkHealthDataNode (Some []) (Some []))).

Definition xml_head : string := "<?xml version=1.0?><HealthData locale=en_US>".

Definition demo_xml (s : string) : XmlOutcome :=
  if String.eqb s (xml_head ++ "plausible") then XmlOk export_plausible
  else if String.eqb s (xml_head ++ "negative") then XmlOk export_negative
  else if String.eqb s (xml_head ++ "slow") then XmlPending
  else XmlErr XmlError.

(** A host in UTC with at most two files: the snapshot (its text) and the
    export (its size in bytes and its text).  The handle of the snapshot
    is 3, that of the export 4; one call takes up to 100000 arguments. *)
Definition demo_host (now_ : Z) (snapshot : option string)
  (export : option (Z * string)) : World :=
  let lookup (p : string) : option (Z * string) :=
    if String.eqb p icloud_file
    then option_map (fun s => (Z.of_nat (String.length s), s)) snapshot
    else if String.eqb p export_file then export
    else None in
  let path_of (handle : Z) : string :=
    if handle =? 3 then icloud_file
    else if handle =? 4 then export_file
    else "" in
  mkWorld now_ (fun _ _ => 0) (fun _ => 1 # 2)
    (fun p => match lookup p with Some _ => true | None => false end)
    (fun p => match lookup p with
              | Some (size, _) => Return size
              | None => Throw (FsError p)
              end)
    (fun p => match lookup p with
              | Some (_, text) => Return text
              | None => Throw (FsError p)
              end)
    (fun p => match lookup p with
              | Some _ => Return (if String.eqb p icloud_file then 3 else 4)
              | None => Throw (FsError p)
              end)
    (fun handle n => match lookup (path_of handle) with
                     | Some (_, text) => Return (substring 0 n text)
                     | None => Throw (FsError (path_of handle))
                     end)
    (fun handle => match lookup (path_of handle) with
                   | Some _ => Return tt
                   | None => Throw (FsError (path_of handle))
                   end)
    (fun p => Throw (FsError p))
    demo_json demo_xml demo_dates demo_floats 100000.

(** The zone of New York in 2025: five hours behind UTC, four from
    2025-03-09T07:00:00Z to 2025-11-02T06:00:00Z.  Read as local times,
    the hour that the clocks skip in March takes the offset before the
    change, and the hour that occurs twice in November its first
    occurrence. *)
Definition new_york (t : Z) (isUTC : bool) : Z :=
  if isUTC then
    if (1741503600000 <=? t) && (t <? 1762063200000)
    then -4 * JSDate.msPerHour else -5 * JSDate.msPerHour
  else
    if (1741489200000 <=? t) && (t <? 1762048800000)
    then -4 * JSDate.msPerHour else -5 * JSDate.msPerHour.

(** The zone of Santiago in April 2025: three hours behind UTC, four from
    2025-04-06T03:00:00Z on, so that the local hour from 23:00 to 24:00 of
    5 April occurs twice; read as a local time it is its first
    occurrence. *)
Definition santiago (t : Z) (isUTC : bool) : Z :=
  if isUTC then
    if t <? 1743908400000 then -3 * JSDate.msPerHour else -4 * JSDate.msPerHour
  else
    if t <? 1743897600000 then -3 * JSDate.msPerHour else -4 * JSDate.msPerHour.

(** The zone of Tokyo: nine hours ahead of UTC all year. *)
Definition tokyo (t : Z) (isUTC : bool) : Z := 9 * JSDate.msPerHour.

(** The zone of Havana in March 2025: five hours behind UTC, four from
    2025-03-09T05:00:00Z on, so that the local hour from 00:00 to 01:00 of
    9 March does not occur; read as a local time it takes the offset
    before the change. *)
Definition havana (t : Z) (isUTC : bool) : Z :=
  if isUTC then
    if 1741496400000 <=? t then -4 * JSDate.msPerHour else -5 * JSDate.msPerHour
  else
    if 1741482000000 <=? t then -4 * JSDate.msPerHour else -5 * JSDate.msPerHour.

(** Fresh snapshot and a valid export side by side. *)
Definition host_fresh : World :=
  demo_host july18_15h (Some "fresh") (Some (2048, xml_head ++ "plausible")).

(** No snapshot, an export that xml2js rejects. *)
Definition host_broken_export : World :=
  demo_host july18_15h None (Some (2048, xml_head ++ "truncated")).

(** No snapshot, a valid export. *)
Definition host_plausible : World :=
  demo_host july18_15h None (Some (2048, xml_head ++ "plausible")).


(** No snapshot, an export of 200 MB. *)
Definition host_huge : World :=
  demo_host july18_15h None (Some (209715200, xml_head ++ "plausible")).

(** A snapshot two days old, no export. *)
Definition host_stale : World :=
  demo_host july18_15h (Some "stale") None.

(** No snapshot, a valid export with two heart-rate records, and an
    engine that takes one argument in a call. *)
Definition host_crowded : World := set_spread_limit host_plausible 1.


(** Nothing on disk, at 16:00. *)
Definition host_bare : World := demo_host july18_16h None None.

(* ===================================================================== *)
(** ** Auxiliary definitions of the proofs *)
(* ===================================================================== *)


(** [durationMinutes] of one sleep record, as [extractSleep] computes it. *)
Definition durationMinutes (w : World) (record : HealthRecord) : number :=
  ((getTime (Date_parse w (endDate record))
    - getTime (Date_parse w (startDate record))) / (1000 * 60)%Z)%num.

(** The parser of the reader looks in the directory of the reader. *)
Definition reader_ok (this : AppleHealthReader) : Prop :=
  exportPath (xmlParser this) = healthDataPath this.

(** The number of host calls of a trace that satisfy [f]. *)
Definition count_event (f : Event -> bool) (t : list Event) : nat :=
  length (filter f t).

Definition is_xml_parse (e : Event) : bool :=
  match e with EvParseString => true | _ => false end.

Definition is_json_parse (e : Event) : bool :=
  match e with EvJSONParse => true | _ => false end.





(** The host call that [findCorrectHealthPath] makes for one candidate, and
    its answer. *)
Definition probe (testPath : string) : Event :=
  EvExists (path_join testPath "export.xml").

Definition holds_export (w : World) (testPath : string) : bool :=
  existsSync w (path_join testPath "export.xml").

(* ===================================================================== *)
(** * Properties *)
(* ===================================================================== *)

(** ** Numbers *)

Lemma bool_eq_iff (a b : bool) : (a = true <-> b = true) -> a = b.
Proof. destruct a, b; intuition congruence. Qed.

Lemma inject_Z_lt (a b : Z) : (inject_Z a < inject_Z b)%Q <-> a < b.
Proof. unfold Qlt, inject_Z; cbn [Qnum Qden]. lia. Qed.

Lemma inject_Z_le (a b : Z) : (inject_Z a <= inject_Z b)%Q <-> a <= b.
Proof. unfold Qle, inject_Z; cbn [Qnum Qden]. lia. Qed.

Lemma num_gt_spec (x y : Q) : (Fin x >? Fin y)%num = true <-> (y < x)%Q.
Proof.
  unfold num_gt, num_lt. rewrite negb_true_iff.
  destruct (Qle_bool x y) eqn:E.
  - apply Qle_bool_iff in E. split; [discriminate | intros H; lra].
  - split; [intros _ | reflexivity].
    apply Qnot_le_lt. intros H. apply Qle_bool_iff in H. congruence.
Qed.

Lemma num_lt_spec (x y : Q) : (Fin x <? Fin y)%num = true <-> (x < y)%Q.
Proof. apply (num_gt_spec y x). Qed.

Lemma truthy_ofZ (n : Z) : truthy (ofZ n) = negb (n =? 0).
Proof.
  unfold truthy, ofZ, Qeq_bool, inject_Z; cbn [Qnum Qden].
  rewrite Z.mul_1_r. reflexivity.
Qed.

Lemma truthy_present (q : Q) : ~ (q == 0)%Q -> truthy (Fin q) = true.
Proof.
  intros H. cbn [truthy]. destruct (Qeq_bool q 0) eqn:E; [|reflexivity].
  apply Qeq_bool_iff in E. contradiction.
Qed.

Lemma or_default_falsy (a : option number) (d : number) :
  missing_or_zero a -> or_default a d = d.
Proof.
  intros [-> | (x & -> & Hx)]; cbn [or_default]; [reflexivity | now rewrite Hx].
Qed.

Lemma or_default_present (a : option number) (q : Q) (d : number) :
  present a q -> or_default a d = Fin q.
Proof.
  intros [-> H]. cbn [or_default]. now rewrite truthy_present.
Qed.

Lemma Qdiv_lt_const (x : Q) (c k : Z) :
  0 < c -> (x / inject_Z c < inject_Z k)%Q <-> (x < inject_Z (k * c))%Q.
Proof.
  intros Hc.
  assert (Hc' : (0 < inject_Z c)%Q) by (apply (inject_Z_lt 0 c); exact Hc).
  assert (Hn : ~ (inject_Z c == 0)%Q) by (intros E; rewrite E in Hc'; discriminate).
  rewrite inject_Z_mult.
  split; intros H.
  - apply (Qmult_lt_r _ _ (inject_Z c)) in H; [|exact Hc'].
    unfold Qdiv in H.
    rewrite <- Qmult_assoc, (Qmult_comm (/ _)), Qmult_inv_r, Qmult_1_r in H by exact Hn.
    exact H.
  - apply (Qmult_lt_r _ _ (inject_Z c)); [exact Hc'|].
    unfold Qdiv.
    rewrite <- Qmult_assoc, (Qmult_comm (/ _)), Qmult_inv_r, Qmult_1_r by exact Hn.
    exact H.
Qed.

(** *** Rounding *)

Lemma Qfloor_nonneg (x : Q) : (0 <= x)%Q -> 0 <= Qfloor x.
Proof. intros H. apply (Qfloor_resp_le 0 x) in H. exact H. Qed.

Lemma Qfloor_ge (x : Q) (n : Z) : (inject_Z n <= x)%Q -> n <= Qfloor x.
Proof. intros H. apply Qfloor_resp_le in H. now rewrite Qfloor_Z in H. Qed.




Lemma nonneg_ofZ (z : Z) : 0 <= z -> nonneg (ofZ z).
Proof.
  intros H. exists (inject_Z z). split; [reflexivity | now apply (inject_Z_le 0)].
Qed.

(** *** Sums and maxima of finite numbers *)







Lemma fold_left_through_map {A B C : Type} (g : A -> C -> A) (f : B -> C)
  (l : list B) (a : A) :
  fold_left (fun t r => g t (f r)) l a = fold_left g (map f l) a.
Proof. revert a. induction l as [|r l IH]; intros a; [reflexivity | apply IH]. Qed.

Lemma Forall_filter {A : Type} (P : A -> Prop) (f : A -> bool) (l : list A) :
  Forall P l -> Forall P (filter f l).
Proof.
  induction 1 as [|x l Hx _ IH]; [constructor|].
  cbn [filter]. destruct (f x); [constructor|]; assumption.
Qed.

(** ** The calendar *)

Section Calendar.
Import JSDate.

(** [YearFromDay d] is the year whose days include [d]. *)
Lemma YearFromDay_spec (d : Z) :
  DayFromYear (YearFromDay d) <= d < DayFromYear (YearFromDay d + 1).
Proof.
  unfold YearFromDay. cbv zeta.
  set (y := 1970 + d * 400 / 146097).
  assert (Hy : 146097 * (y - 1970) <= d * 400 < 146097 * (y - 1970) + 146097).
  { subst y. pose proof (Z.div_mod (d * 400) 146097 ltac:(lia)).
    pose proof (Z.mod_pos_bound (d * 400) 146097 ltac:(lia)). lia. }
  clearbody y.
  destruct (Z.ltb_spec d (DayFromYear y)) as [H1|H1].
  - replace (y - 1 + 1) with y by lia. split; [|exact H1].
    unfold DayFromYear in *. Z.div_mod_to_equations. lia.
  - destruct (Z.leb_spec (DayFromYear (y + 1)) d) as [H2|H2].
    + split; [exact H2|]. unfold DayFromYear in *. Z.div_mod_to_equations. lia.
    + lia.
Qed.

Lemma DaysInYear (y : Z) :
  DayFromYear (y + 1) - DayFromYear y = if InLeapYear y then 366 else 365.
Proof.
  unfold DayFromYear, InLeapYear.
  replace (y + 1 - 1969) with (y - 1969 + 1) by lia.
  replace (y + 1 - 1901) with (y - 1901 + 1) by lia.
  replace (y + 1 - 1601) with (y - 1601 + 1) by lia.
  pose proof (Z.div_mod (y - 1969) 4 ltac:(lia)).
  pose proof (Z.mod_pos_bound (y - 1969) 4 ltac:(lia)).
  pose proof (Z.div_mod (y - 1969 + 1) 4 ltac:(lia)).
  pose proof (Z.mod_pos_bound (y - 1969 + 1) 4 ltac:(lia)).
  pose proof (Z.div_mod (y - 1901) 100 ltac:(lia)).
  pose proof (Z.mod_pos_bound (y - 1901) 100 ltac:(lia)).
  pose proof (Z.div_mod (y - 1901 + 1) 100 ltac:(lia)).
  pose proof (Z.mod_pos_bound (y - 1901 + 1) 100 ltac:(lia)).
  pose proof (Z.div_mod (y - 1601) 400 ltac:(lia)).
  pose proof (Z.mod_pos_bound (y - 1601) 400 ltac:(lia)).
  pose proof (Z.div_mod (y - 1601 + 1) 400 ltac:(lia)).
  pose proof (Z.mod_pos_bound (y - 1601 + 1) 400 ltac:(lia)).
  pose proof (Z.div_mod y 4 ltac:(lia)).
  pose proof (Z.mod_pos_bound y 4 ltac:(lia)).
  pose proof (Z.div_mod y 100 ltac:(lia)).
  pose proof (Z.mod_pos_bound y 100 ltac:(lia)).
  pose proof (Z.div_mod y 400 ltac:(lia)).
  pose proof (Z.mod_pos_bound y 400 ltac:(lia)).
  destruct (y mod 4 =? 0) eqn:E4; destruct (y mod 100 =? 0) eqn:E100;
    destruct (y mod 400 =? 0) eqn:E400; cbn [andb orb negb];
    rewrite ?Z.eqb_eq, ?Z.eqb_neq in *; lia.
Qed.

Lemma DayWithinYear_range (t : Z) :
  0 <= DayWithinYear t < (if InLeapYear (YearFromTime t) then 366 else 365).
Proof.
  unfold DayWithinYear, YearFromTime.
  pose proof (YearFromDay_spec (Day t)).
  pose proof (DaysInYear (YearFromDay (Day t))).
  destruct (InLeapYear (YearFromDay (Day t))); lia.
Qed.

Lemma MonthFromTime_range (t : Z) : 0 <= MonthFromTime t <= 11.
Proof.
  unfold MonthFromTime.
  repeat match goal with |- context [if ?b then _ else _] => destruct b end; lia.
Qed.

Lemma DateFromTime_range (t : Z) : 1 <= DateFromTime t <= 31.
Proof.
  pose proof (DayWithinYear_range t) as H.
  unfold DateFromTime, MonthFromTime.
  set (d := DayWithinYear t) in *.
  destruct (InLeapYear (YearFromTime t)); cbn [monthStart];
    repeat match goal with
           | |- context [if ?b then _ else _] =>
               let E := fresh "E" in
               destruct b eqn:E;
               [apply Z.ltb_lt in E | apply Z.ltb_ge in E]
           end; cbn [monthStart]; lia.
Qed.

Lemma HourFromTime_range (t : Z) : 0 <= HourFromTime t <= 23.
Proof.
  unfold HourFromTime. pose proof (Z.mod_pos_bound (t / msPerHour) 24 eq_refl). lia.
Qed.

Lemma MakeDay_DateFromTime (t k : Z) :
  MakeDay (YearFromTime t) (MonthFromTime t) (DateFromTime t - k) = Day t - k.
Proof.
  pose proof (MonthFromTime_range t) as Hm.
  unfold MakeDay.
  rewrite (Z.div_small (MonthFromTime t) 12), (Z.mod_small (MonthFromTime t) 12) by lia.
  rewrite Z.add_0_r. unfold DateFromTime, DayWithinYear. lia.
Qed.

Lemma Day_MakeDate (d tm : Z) : 0 <= tm < msPerDay -> Day (MakeDate d tm) = d.
Proof.
  intros H. unfold Day, MakeDate.
  rewrite Z.add_comm, Z.div_add by (unfold msPerDay; lia).
  rewrite Z.div_small by lia. lia.
Qed.

Lemma TimeWithinDay_range (t : Z) : 0 <= TimeWithinDay t < msPerDay.
Proof. unfold TimeWithinDay. apply Z.mod_pos_bound. reflexivity. Qed.

Lemma setHours_local (tz : Z -> bool -> Z) (t h m s ms : Z) :
  setHours tz t h m s ms
  = UTC tz (Day (LocalTime tz t) * msPerDay + MakeTime h m s ms).
Proof. reflexivity. Qed.

(** Setting the day of the month to [getDate - k] asks for the local time
    of day of [t], [k] days earlier, over month and year ends too. *)
Lemma setDate_back (tz : Z -> bool -> Z) (t k : Z) :
  setDate tz t (getDate tz t - k)
  = UTC tz ((Day (LocalTime tz t) - k) * msPerDay + TimeWithinDay (LocalTime tz t)).
Proof. unfold setDate, getDate. rewrite MakeDay_DateFromTime. reflexivity. Qed.

Lemma Day_same_time (d tm : Z) : 0 <= tm < msPerDay -> Day (d * msPerDay + tm) = d.
Proof. exact (Day_MakeDate d tm). Qed.

End Calendar.

(** ** The date window of [getDateRange] *)

Section Window.
Import JSDate.
Variable w : World.

Lemma getDateRange_today :
  getDateRange w "today"
  = (setHours (LocalTZA w) (now w) 0 0 0 0,
     setHours (LocalTZA w) (now w) 23 59 59 999).
Proof. reflexivity. Qed.

Lemma getDateRange_back (timeframe : string) (k : Z) :
  (timeframe = "week" /\ k = 7) \/ (timeframe = "month" /\ k = 30) ->
  getDateRange w timeframe
  = (setHours (LocalTZA w)
       (setDate (LocalTZA w) (now w) (getDate (LocalTZA w) (now w) - k)) 0 0 0 0,
     setHours (LocalTZA w) (now w) 23 59 59 999).
Proof. intros [[-> ->] | [-> ->]]; reflexivity. Qed.

Lemma getDateRange_end (timeframe : string) :
  snd (getDateRange w timeframe) = setHours (LocalTZA w) (now w) 23 59 59 999.
Proof. reflexivity. Qed.

Lemma getDateRange_other (timeframe : string) :
  valid_timeframe timeframe = false ->
  getDateRange w timeframe
  = (now w, setHours (LocalTZA w) (now w) 23 59 59 999).
Proof.
  unfold valid_timeframe. cbn [existsb]. rewrite !orb_false_iff.
  intros (H1 & H2 & H3 & _). unfold getDateRange. rewrite H1, H2, H3. reflexivity.
Qed.

(** The time values of the window, with the offsets of the zone left in. *)
Lemma start_today_value :
  fst (getDateRange w "today")
  = UTC (LocalTZA w) (midnight_before w 0).
Proof.
  rewrite getDateRange_today. cbn [fst]. rewrite setHours_local.
  f_equal. unfold midnight_before, local, MakeTime. lia.
Qed.

Lemma start_back_value (timeframe : string) (k : Z) :
  (timeframe = "week" /\ k = 7) \/ (timeframe = "month" /\ k = 30) ->
  fst (getDateRange w timeframe)
  = UTC (LocalTZA w)
      (Day (local w (UTC (LocalTZA w) (same_time_before w k))) * msPerDay).
Proof.
  intros H. rewrite (getDateRange_back timeframe k H). cbn [fst].
  rewrite setHours_local, setDate_back.
  f_equal. unfold same_time_before, midnight_before, local, MakeTime. lia.
Qed.

Lemma end_value (timeframe : string) :
  snd (getDateRange w timeframe) = UTC (LocalTZA w) (end_of_today w).
Proof.
  rewrite getDateRange_end, setHours_local.
  replace (MakeTime 23 59 59 999) with 86399999 by (vm_compute; reflexivity).
  f_equal. unfold end_of_today, midnight_before, local. lia.
Qed.

Lemma start_today :
  on_the_clock w (midnight_before w 0) ->
  local w (fst (getDateRange w "today")) = midnight_before w 0.
Proof. intros H. rewrite start_today_value. exact H. Qed.

Lemma start_back (timeframe : string) (k : Z) :
  (timeframe = "week" /\ k = 7) \/ (timeframe = "month" /\ k = 30) ->
  on_the_clock w (same_time_before w k) ->
  on_the_clock w (midnight_before w k) ->
  local w (fst (getDateRange w timeframe)) = midnight_before w k.
Proof.
  intros H H1 H2. rewrite (start_back_value timeframe k H).
  unfold on_the_clock in H1. rewrite H1.
  unfold same_time_before at 1, midnight_before at 1.
  rewrite Day_same_time by apply TimeWithinDay_range.
  exact H2.
Qed.

Lemma end_of_day (timeframe : string) :
  on_the_clock w (end_of_today w) ->
  local w (snd (getDateRange w timeframe)) = end_of_today w.
Proof. intros H. rewrite end_value. exact H. Qed.

(** The day that [setDate] lands on is at most one day off the day asked
    for, whatever the zone does, as long as its offsets stay within a day
    of each other. *)
Lemma landing_day (k : Z) :
  zone_steady w ->
  Day (local w (now w)) - k - 1
  <= Day (local w (UTC (LocalTZA w) (same_time_before w k)))
  <= Day (local w (now w)) - k + 1.
Proof.
  intros Hz.
  pose proof (TimeWithinDay_range (local w (now w))) as Ht.
  set (x := same_time_before w k).
  assert (E : local w (UTC (LocalTZA w) x)
              = x - LocalTZA w x false + LocalTZA w (x - LocalTZA w x false) true)
    by reflexivity.
  rewrite E.
  pose proof (Hz (x - LocalTZA w x false) x true false) as H1.
  pose proof (Hz x (x - LocalTZA w x false) false true) as H2.
  revert H1 H2.
  generalize (LocalTZA w (x - LocalTZA w x false) true).
  generalize (LocalTZA w x false).
  subst x. unfold same_time_before, midnight_before.
  revert Ht. generalize (TimeWithinDay (local w (now w))).
  generalize (Day (local w (now w))).
  unfold Day. change msPerDay with 86400000.
  intros D tm Ht o1 o2 H1 H2.
  Z.div_mod_to_equations. lia.
Qed.

Lemma window_ordered (timeframe : string) :
  zone_steady w ->
  timeframe = "today" \/ timeframe = "week" \/ timeframe = "month" ->
  fst (getDateRange w timeframe) <= snd (getDateRange w timeframe).
Proof.
  intros Hz H. rewrite end_value.
  assert (Hk : exists d, Day (local w (now w)) - 31 <= d <= Day (local w (now w)) /\
                         fst (getDateRange w timeframe)
                         = UTC (LocalTZA w) (d * msPerDay)).
  { destruct H as [-> | [-> | ->]].
    - exists (Day (local w (now w))). split; [lia|].
      rewrite start_today_value. unfold midnight_before. f_equal. f_equal. lia.
    - eexists. split; [|apply (start_back_value "week" 7); auto].
      pose proof (landing_day 7 Hz). lia.
    - eexists. split; [|apply (start_back_value "month" 30); auto].
      pose proof (landing_day 30 Hz). lia. }
  destruct Hk as (d & Hd & ->).
  unfold UTC, end_of_today, midnight_before.
  pose proof (Hz (Day (local w (now w)) * msPerDay + 86399999) (d * msPerDay)
                 false false) as Ho.
  replace ((Day (local w (now w)) - 0) * msPerDay)
    with (Day (local w (now w)) * msPerDay) by lia.
  revert Ho.
  generalize (LocalTZA w (Day (local w (now w)) * msPerDay + 86399999) false).
  generalize (LocalTZA w (d * msPerDay) false).
  revert Hd. generalize (Day (local w (now w))).
  change msPerDay with 86400000.
  intros D Hd o1 o2 Ho. lia.
Qed.

(** In a zone without any change of the clocks every local time is on the
    clock and the offsets are steady. *)
Lemma constant_zone (c : Z) :
  (forall t b, LocalTZA w t b = c) ->
  (forall x, on_the_clock w x) /\ zone_steady w.
Proof.
  intros H. split.
  - intros x. unfold on_the_clock, local, LocalTime, UTC. rewrite !H. lia.
  - intros t t' b b'. rewrite !H. change msPerDay with 86400000. lia.
Qed.

Lemma window_example_UTC :
  now w = Date_UTC 2025 6 18 15 0 0 0 -> (forall t b, LocalTZA w t b = 0) ->
  getDateRange w "today"
  = (Date_UTC 2025 6 18 0 0 0 0, Date_UTC 2025 6 18 23 59 59 999).
Proof.
  intros Hnow Htz.
  apply injective_projections.
  - rewrite start_today_value. unfold UTC, midnight_before, local, LocalTime.
    rewrite !Htz, Hnow. vm_compute. reflexivity.
  - rewrite end_value. unfold UTC, end_of_today, midnight_before, local, LocalTime.
    rewrite !Htz, Hnow. vm_compute. reflexivity.
Qed.

(** At 2025-07-18T15:00:00Z it is 18 July where the offset is at least
    -15 h and less than +9 h. *)
Lemma july18_local_day :
  now w = Date_UTC 2025 6 18 15 0 0 0 ->
  -15 * msPerHour <= LocalTZA w (now w) true < 9 * msPerHour ->
  midnight_before w 0 = Date_UTC 2025 6 18 0 0 0 0 /\
  end_of_today w = Date_UTC 2025 6 18 23 59 59 999.
Proof.
  intros Hnow Hoff.
  assert (E : Day (local w (now w)) = 20287).
  { unfold local, LocalTime. revert Hoff. rewrite Hnow.
    replace (Date_UTC 2025 6 18 15 0 0 0) with 1752850800000
      by (vm_compute; reflexivity).
    generalize (LocalTZA w 1752850800000 true). intros o.
    unfold Day. change msPerDay with 86400000. change msPerHour with 3600000.
    intros Ho. Z.div_mod_to_equations. lia. }
  unfold end_of_today, midnight_before. rewrite E.
  split; vm_compute; reflexivity.
Qed.

End Window.

(** Claim C7 as stated fails.  The windows are cut in the local time of the
    host: in Tokyo at 2025-07-18T15:00:00Z it is already 19 July, and the
    window of "today" is that of 19 July; in Havana on 9 March 2025 the
    clocks go from 00:00 straight to 01:00, and the window of "today"
    starts at 01:00, there being no midnight that day. *)
Lemma getDateRange_follows_the_host :
  getDateRange (set_zone host_fresh tokyo) "today"
  = (JSDate.Date_UTC 2025 6 18 15 0 0 0, JSDate.Date_UTC 2025 6 19 14 59 59 999) /\
  local (set_zone host_fresh tokyo)
        (fst (getDateRange (set_zone host_fresh tokyo) "today"))
  = JSDate.Date_UTC 2025 6 19 0 0 0 0 /\
  local (set_now (set_zone host_fresh havana) (JSDate.Date_UTC 2025 2 9 15 0 0 0))
        (fst (getDateRange
                (set_now (set_zone host_fresh havana)
                         (JSDate.Date_UTC 2025 2 9 15 0 0 0)) "today"))
  = JSDate.Date_UTC 2025 2 9 1 0 0 0.
Proof. repeat split; vm_compute; reflexivity. Qed.

(** Claim C7, amended.  In the local time of the host, and as long as the
    local times asked for are on the clock of its zone: the window of
    "today" starts at midnight of the day of now, the window of "week" at
    midnight 7 days earlier, the window of "month" at midnight 30 days
    earlier, and every window ends at 23:59:59.999 of the day of now.  In a
    zone whose offsets stay within a day of each other the start is never
    after the end.  With the clock at 2025-07-18T15:00:00Z, on a host where
    it is then 18 July, the window of "today" runs from 00:00:00 to
    23:59:59.999 of 18 July in local time, and on a host in UTC these are
    its time values (months count from 0 in [Date_UTC]). *)
Theorem getDateRange_window (w : World) :
  (on_the_clock w (midnight_before w 0) ->
   local w (fst (getDateRange w "today")) = midnight_before w 0) /\
  (forall timeframe k,
      (timeframe = "week" /\ k = 7) \/ (timeframe = "month" /\ k = 30) ->
      on_the_clock w (same_time_before w k) ->
      on_the_clock w (midnight_before w k) ->
      local w (fst (getDateRange w timeframe)) = midnight_before w k) /\
  (forall timeframe,
      on_the_clock w (end_of_today w) ->
      local w (snd (getDateRange w timeframe)) = end_of_today w) /\
  (forall timeframe,
      zone_steady w ->
      timeframe = "today" \/ timeframe = "week" \/ timeframe = "month" ->
      fst (getDateRange w timeframe) <= snd (getDateRange w timeframe)) /\
  (now w = JSDate.Date_UTC 2025 6 18 15 0 0 0 ->
   -15 * JSDate.msPerHour <= LocalTZA w (now w) true < 9 * JSDate.msPerHour ->
   on_the_clock w (JSDate.Date_UTC 2025 6 18 0 0 0 0) ->
   on_the_clock w (JSDate.Date_UTC 2025 6 18 23 59 59 999) ->
   local w (fst (getDateRange w "today")) = JSDate.Date_UTC 2025 6 18 0 0 0 0 /\
   local w (snd (getDateRange w "today")) = JSDate.Date_UTC 2025 6 18 23 59 59 999) /\
  (now w = JSDate.Date_UTC 2025 6 18 15 0 0 0 ->
   (forall t b, LocalTZA w t b = 0) ->
   getDateRange w "today"
   = (JSDate.Date_UTC 2025 6 18 0 0 0 0, JSDate.Date_UTC 2025 6 18 23 59 59 999)).
Proof.
  split; [apply start_today|].
  split; [intros timeframe k; apply start_back|].
  split; [intros timeframe; apply end_of_day|].
  split; [intros timeframe; apply window_ordered|].
  split; [|apply window_example_UTC].
  intros Hnow Hoff H1 H2.
  destruct (july18_local_day w Hnow Hoff) as [E1 E2].
  rewrite <- E1 in H1 |- *. rewrite <- E2 in H2 |- *.
  split; [now apply start_today | now apply end_of_day].
Qed.

(** In New York at 2025-03-12T15:00:00Z, three days after the clocks went
    forward: the window of "week" starts at midnight of 5 March, which was
    still on winter time. *)
Lemma getDateRange_window_witness :
  local (set_now (set_zone host_fresh new_york) (JSDate.Date_UTC 2025 2 12 15 0 0 0))
        (fst (getDateRange
                (set_now (set_zone host_fresh new_york)
                         (JSDate.Date_UTC 2025 2 12 15 0 0 0)) "week"))
  = JSDate.Date_UTC 2025 2 5 0 0 0 0.
Proof.
  refine (eq_trans
            (proj1 (proj2 (getDateRange_window
                             (set_now (set_zone host_fresh new_york)
                                      (JSDate.Date_UTC 2025 2 12 15 0 0 0))))
                   "week" 7 (or_introl (conj eq_refl eq_refl)) _ _) _);
    vm_compute; reflexivity.
Defined.

(** ** The metric extractor *)

Lemma has_type_true (ty : string) (r : HealthRecord) :
  has_type ty r = true <-> type r = ty.
Proof. unfold has_type. apply String.eqb_eq. Qed.

Lemma filter_has_type_nil (ty : string) (l : list HealthRecord) :
  Forall (fun r => type r <> ty) l -> filter (has_type ty) l = [].
Proof.
  induction 1 as [|r l Hr _ IH]; [reflexivity|].
  cbn [filter]. destruct (has_type ty r) eqn:E; [|exact IH].
  apply has_type_true in E. contradiction.
Qed.

(** Claim C4.  When no record feeds steps, heart rate, sleep or calories
    and there is no workout, the extractor returns steps 0, heart rate
    60/80/120, sleep 7.5, calories 0 and 0 workouts, for every timeframe and
    clock. *)
Theorem extractHealthMetrics_no_data (w : World) (xmlResult : XmlResult)
  (timeframe : string) :
  Forall no_metric_record (get_records xmlResult) ->
  get_workouts xmlResult = [] ->
  extractHealthMetrics w xmlResult timeframe
  = Return (mkHealthData (ofZ 0) (mkHeartRate (ofZ 60) (ofZ 80) (ofZ 120))
                         (Fin (15 # 2)) (ofZ 0) (ofZ 0)).
Proof.
  intros Hrec Hwork. unfold extractHealthMetrics.
  destruct (getDateRange w timeframe) as [s e].
  rewrite Hwork.
  set (filtered := filter _ (get_records xmlResult)).
  assert (Hf : Forall no_metric_record filtered) by now apply Forall_filter.
  assert (H1 : filter (has_type StepCount) filtered = []).
  { apply filter_has_type_nil. revert Hf. apply Forall_impl. now intros r (? & _). }
  assert (H2 : filter (has_type HeartRate_) filtered = []).
  { apply filter_has_type_nil. revert Hf. apply Forall_impl. now intros r (_ & ? & _). }
  assert (H3 : filter (has_type SleepAnalysis) filtered = []).
  { apply filter_has_type_nil. revert Hf. apply Forall_impl. now intros r (_ & _ & ? & _). }
  assert (H4 : filter (has_type ActiveEnergyBurned) filtered = []).
  { apply filter_has_type_nil. revert Hf. apply Forall_impl. now intros r (_ & _ & _ & ?). }
  unfold extractSteps, extractHeartRate, extractSleep, extractActiveCalories.
  change (has_type "HKQuantityTypeIdentifierStepCount") with (has_type StepCount).
  change (has_type "HKQuantityTypeIdentifierHeartRate") with (has_type HeartRate_).
  change (has_type "HKCategoryTypeIdentifierSleepAnalysis") with (has_type SleepAnalysis).
  change (has_type "HKQuantityTypeIdentifierActiveEnergyBurned")
    with (has_type ActiveEnergyBurned).
  rewrite H1, H2, H3, H4. reflexivity.
Qed.

Lemma extractHealthMetrics_no_data_witness :
  extractHealthMetrics host_bare export_empty "week"
  = Return (mkHealthData (ofZ 0) (mkHeartRate (ofZ 60) (ofZ 80) (ofZ 120))
                         (Fin (15 # 2)) (ofZ 0) (ofZ 0)).
Proof.
  apply (extractHealthMetrics_no_data host_bare export_empty "week").
  - constructor.
  - reflexivity.
Defined.

Section Plausible.
Variable w : World.









(** [extractHeartRate] throws only the RangeError of the spread, and only
    when the heart-rate records outnumber the arguments of one call. *)
Lemma extractHeartRate_throws (l : list HealthRecord) (e : Error) :
  extractHeartRate w l = Throw e ->
  e = RangeError /\
  spread_limit w < Z.of_nat (length (filter (has_type HeartRate_) l)).
Proof.
  unfold extractHeartRate.
  change (has_type "HKQuantityTypeIdentifierHeartRate") with (has_type HeartRate_).
  destruct (filter (has_type HeartRate_) l) as [|r0 rest]; [discriminate|].
  unfold Math_max_spread. rewrite length_map.
  destruct (Z.ltb_spec (spread_limit w) (Z.of_nat (length (r0 :: rest))));
    [|discriminate].
  intros [= <-]. auto.
Qed.



End Plausible.


(** The extractor throws only the RangeError of the spread. *)
Lemma extractHealthMetrics_throws (w : World) (xmlResult : XmlResult)
  (timeframe : string) (e : Error) :
  extractHealthMetrics w xmlResult timeframe = Throw e -> e = RangeError.
Proof.
  unfold extractHealthMetrics.
  destruct (getDateRange w timeframe) as [s0 e0].
  destruct (extractHeartRate w _) as [hr|err] eqn:Ehr; [discriminate|].
  intros [= <-]. exact (proj1 (extractHeartRate_throws w _ err Ehr)).
Qed.


(** ** The live snapshot *)

(** Claim C5 as stated fails: a snapshot whose activeCalories and
    sleepHours are 0 is mapped to 400 and 7.5, where the mapping of the
    specification keeps the 0. *)
Lemma processiPhoneData_differs_on_zero :
  activeCalories (processiPhoneData snapshot_early "today") = ofZ 400 /\
  activeCalories (reference_mapping snapshot_early "today") = ofZ 0 /\
  sleepHours (processiPhoneData snapshot_early "today") = Fin (15 # 2) /\
  sleepHours (reference_mapping snapshot_early "today") = ofZ 0.
Proof. repeat split. Qed.

(** Claim C5, amended.  A field that is present and not zero is kept, a
    field that is missing or zero takes its default: steps 0, sleepHours
    7.5, activeCalories 400.  With a heart rate present and not zero the
    triple is heartRate - 10, heartRate, heartRate + 60; with the heart rate
    missing or zero, average is 75 and max is 135.  The workout count is,
    for "today", 1 when activeCalories is present and above 300 and 0
    otherwise, and 5 for every other timeframe. *)
Theorem processiPhoneData_mapping (d : iPhoneHealthData.t) (timeframe : string) :
  ((forall q, present (iPhoneHealthData.steps d) q ->
      steps (processiPhoneData d timeframe) = Fin q) /\
   (missing_or_zero (iPhoneHealthData.steps d) ->
      steps (processiPhoneData d timeframe) = ofZ 0)) /\
  ((forall q, present (iPhoneHealthData.heartRate d) q ->
      heartRate (processiPhoneData d timeframe)
      = mkHeartRate (Fin (q - 10)) (Fin q) (Fin (q + 60))) /\
   (missing_or_zero (iPhoneHealthData.heartRate d) ->
      average (heartRate (processiPhoneData d timeframe)) = ofZ 75 /\
      max (heartRate (processiPhoneData d timeframe)) = ofZ 135)) /\
  ((forall q, present (iPhoneHealthData.sleepHours d) q ->
      sleepHours (processiPhoneData d timeframe) = Fin q) /\
   (missing_or_zero (iPhoneHealthData.sleepHours d) ->
      sleepHours (processiPhoneData d timeframe) = Fin (15 # 2))) /\
  ((forall q, present (iPhoneHealthData.activeCalories d) q ->
      activeCalories (processiPhoneData d timeframe) = Fin q) /\
   (missing_or_zero (iPhoneHealthData.activeCalories d) ->
      activeCalories (processiPhoneData d timeframe) = ofZ 400)) /\
  (timeframe = "today" ->
   (forall q, present (iPhoneHealthData.activeCalories d) q -> (300 < q)%Q ->
      workouts (processiPhoneData d timeframe) = ofZ 1) /\
   (forall q, present (iPhoneHealthData.activeCalories d) q -> (q <= 300)%Q ->
      workouts (processiPhoneData d timeframe) = ofZ 0) /\
   (missing_or_zero (iPhoneHealthData.activeCalories d) ->
      workouts (processiPhoneData d timeframe) = ofZ 0)) /\
  (timeframe <> "today" -> workouts (processiPhoneData d timeframe) = ofZ 5).
Proof.
  unfold processiPhoneData;
    cbn [steps heartRate sleepHours activeCalories workouts average max].
  split; [split|split; [split|split; [split|split; [split|split]]]].
  - intros q H. now apply or_default_present.
  - intros H. now apply or_default_falsy.
  - intros q H. now rewrite !(or_default_present _ q _ H).
  - intros H. now rewrite (or_default_falsy _ _ H).
  - intros q H. now apply or_default_present.
  - intros H. now apply or_default_falsy.
  - intros q H. now apply or_default_present.
  - intros H. now apply or_default_falsy.
  - intros Htf. rewrite Htf. cbn [String.eqb Ascii.eqb Bool.eqb].
    split; [|split].
    + intros q [-> Hq] Hlt. rewrite truthy_present by assumption.
      replace (Fin q >? ofZ 300)%num with true; [reflexivity|].
      symmetry. apply num_gt_spec. exact Hlt.
    + intros q [-> Hq] Hle. rewrite truthy_present by assumption.
      replace (Fin q >? ofZ 300)%num with false; [reflexivity|].
      symmetry. apply not_true_is_false. intros E. apply num_gt_spec in E.
      change (inject_Z 300) with 300%Q in E. lra.
    + intros [-> | (x & -> & Hx)]; [reflexivity|].
      rewrite Hx. reflexivity.
  - intros H. apply String.eqb_neq in H. now rewrite H.
Qed.

Lemma processiPhoneData_mapping_witness :
  activeCalories (processiPhoneData snapshot_early "today") = ofZ 400 /\
  heartRate (processiPhoneData snapshot_fresh "week")
  = mkHeartRate (Fin (75 - 10)) (Fin 75) (Fin (75 + 60)).
Proof.
  split.
  - apply (processiPhoneData_mapping snapshot_early "today").
    right. exists (ofZ 0). split; reflexivity.
  - apply (processiPhoneData_mapping snapshot_fresh "week").
    split; [reflexivity | discriminate].
Defined.

(** With no usable heart rate the resting value is 65 - 10 = 55, not the
    65 that heartRate 75 would give. *)
Lemma processiPhoneData_resting_default (d : iPhoneHealthData.t)
  (timeframe : string) :
  missing_or_zero (iPhoneHealthData.heartRate d) ->
  heartRate (processiPhoneData d timeframe)
  = mkHeartRate (ofZ 55) (ofZ 75) (ofZ 135).
Proof.
  intros H. unfold processiPhoneData. cbn [heartRate].
  rewrite !(or_default_falsy _ _ H). reflexivity.
Qed.

(** The freshness test of [readiPhoneData], in milliseconds. *)
Lemma fresh_check (now_ t : Z) :
  ((ofZ now_ - getTime (Some t)) / ofZ (1000 * 60 * 60) <? ofZ 24)%num
  = (now_ - t <? 24 * JSDate.msPerHour).
Proof.
  apply bool_eq_iff. cbn [getTime]. unfold ofZ, num_sub, num_div.
  change (Qeq_bool (inject_Z (1000 * 60 * 60)) 0) with false. cbv iota.
  rewrite num_lt_spec, Z.ltb_lt.
  rewrite (Qdiv_lt_const _ (1000 * 60 * 60) 24) by reflexivity.
  change (24 * (1000 * 60 * 60)) with (24 * JSDate.msPerHour).
  rewrite <- inject_Z_lt.
  unfold Z.sub, Qminus. rewrite inject_Z_plus, inject_Z_opp. reflexivity.
Qed.

Ltac io_simpl :=
  cbn [bind try_catch ret throw get_timestamp as_iPhoneHealthData
       outcome trace fst snd app negb].
Ltac io_step H := rewrite H; io_simpl.

Lemma readiPhoneData_fresh (w : World) (this : AppleHealthReader)
  (d : iPhoneHealthData.t) :
  fresh_snapshot w this d ->
  readiPhoneData w this
  = ([EvExists (iCloudPath this); EvReadFile (iCloudPath this); EvJSONParse],
     Return (Some d)).
Proof.
  intros (Hex & data & ts & t & Hread & Hjson & Hts & Hne & Hdate & Hfresh).
  unfold readiPhoneData, fs_existsSync, fs_readFileSync, JSON_parse_, call.
  io_step Hex. io_step Hread. io_step Hjson. io_step Hts.
  cbn [truthy_string]. apply String.eqb_neq in Hne. io_step Hne.
  rewrite Hdate, fresh_check.
  apply Z.ltb_lt in Hfresh. io_step Hfresh. reflexivity.
Qed.

Lemma readiPhoneData_absent (w : World) (this : AppleHealthReader) :
  existsSync w (iCloudPath this) = false ->
  readiPhoneData w this = ([EvExists (iCloudPath this)], Return None).
Proof.
  intros H. unfold readiPhoneData, fs_existsSync, call. io_step H. reflexivity.
Qed.

(** Claim C8.  When the snapshot file is absent or unreadable, or is not
    JSON, or has no timestamp, or has one more than 24 hours old, the
    reader returns null: no snapshot is handed on. *)
Theorem readiPhoneData_unavailable (w : World) (this : AppleHealthReader) :
  snapshot_unavailable w this ->
  outcome (readiPhoneData w this) = Return None.
Proof.
  intros H.
  unfold readiPhoneData, fs_existsSync, fs_readFileSync, JSON_parse_, call.
  destruct (existsSync w (iCloudPath this)) eqn:Hex; [|reflexivity]. io_simpl.
  destruct H as [Habs | e Hread | data e Hread Hjson | data d Hread Hjson Hts
                 | data d ts t Hread Hjson Hts Hdate Hold].
  - congruence.
  - io_step Hread. reflexivity.
  - io_step Hread. io_step Hjson. reflexivity.
  - io_step Hread. io_step Hjson. io_step Hts. reflexivity.
  - io_step Hread. io_step Hjson. io_step Hts.
    cbn [truthy_string]. destruct (negb (ts =? "")%string); [|reflexivity].
    rewrite Hdate, fresh_check.
    replace (now w - t <? 24 * JSDate.msPerHour) with false; [reflexivity|].
    symmetry. apply Z.ltb_ge. lia.
Qed.

Lemma readiPhoneData_unavailable_witness :
  outcome (readiPhoneData host_stale demo_reader) = Return None.
Proof.
  apply readiPhoneData_unavailable.
  apply (unavailable_stale host_stale demo_reader "stale" snapshot_stale
           "2025-07-16T10:30:00Z" 1752661800000);
    [reflexivity | reflexivity | reflexivity | reflexivity | vm_compute; reflexivity].
Defined.

(** ** The reader of the bulk export *)

(** The size test of [parseHealthData], in bytes. *)
Lemma size_check (size : Z) :
  (ofZ size / 1024 / 1024 >? MAX_FILE_SIZE_MB)%num = (104857600 <? size).
Proof.
  apply bool_eq_iff. unfold ofZ, num_div.
  change (Qeq_bool (inject_Z 1024) 0) with false. cbv iota.
  rewrite num_gt_spec, Z.ltb_lt.
  unfold MAX_FILE_SIZE_MB.
  assert (E : (inject_Z size / inject_Z 1024 / inject_Z 1024
               == inject_Z size / inject_Z 1048576)%Q).
  { change (inject_Z 1048576) with (inject_Z 1024 * inject_Z 1024)%Q.
    field; discriminate. }
  rewrite E.
  rewrite <- inject_Z_lt.
  split; intros H.
  - apply (Qmult_lt_r _ _ (inject_Z 1048576)) in H; [|reflexivity].
    unfold Qdiv in H.
    rewrite <- Qmult_assoc, (Qmult_comm (/ _)), Qmult_inv_r, Qmult_1_r in H
      by discriminate.
    exact H.
  - apply (Qmult_lt_r _ _ (inject_Z 1048576)); [reflexivity|].
    unfold Qdiv. rewrite <- Qmult_assoc, (Qmult_comm (/ _)), Qmult_inv_r, Qmult_1_r
      by discriminate.
    exact H.
Qed.

(** Claim C6.  When stat reports a size above the ceiling of 100 MB, the
    reader has called existsSync and statSync only, and fails with the
    too-large error (wrapped as every failure of the reader is): the file
    is not read and the parser is not run. *)
Theorem parseHealthData_too_large (w : World) (this : AppleHealthXMLParser)
  (timeframe : string) (size : Z) :
  existsSync w (path_join (exportPath this) "export.xml") = true ->
  statSync w (path_join (exportPath this) "export.xml") = Return size ->
  MAX_FILE_SIZE_MB * 1024 * 1024 < size ->
  parseHealthData w this timeframe
  = ([EvExists (path_join (exportPath this) "export.xml");
      EvStat (path_join (exportPath this) "export.xml")],
     Throw (FailedToParse (FileTooLarge (inject_Z size / 1024 / 1024)%Q))) /\
  existsb full_parse_event (trace (parseHealthData w this timeframe)) = false.
Proof.
  intros Hex Hstat Hsize.
  assert (E : parseHealthData w this timeframe
    = ([EvExists (path_join (exportPath this) "export.xml");
      EvStat (path_join (exportPath this) "export.xml")],
     Throw (FailedToParse (FileTooLarge (inject_Z size / 1024 / 1024)%Q)))).
  { unfold parseHealthData, fs_existsSync, fs_statSync, call.
    rewrite Hex, Hstat. cbn [bind negb]. rewrite size_check.
    replace (104857600 <? size) with true
      by (symmetry; apply Z.ltb_lt; unfold MAX_FILE_SIZE_MB in Hsize; lia).
    reflexivity. }
  split; [exact E|]. rewrite E. reflexivity.
Qed.

Lemma parseHealthData_too_large_witness :
  existsb full_parse_event
    (trace (parseHealthData host_huge (xmlParser demo_reader) "today")) = false.
Proof.
  apply (parseHealthData_too_large host_huge (xmlParser demo_reader) "today"
           209715200); reflexivity.
Defined.

Lemma parseHealthData_returns (w : World) (this : AppleHealthXMLParser)
  (timeframe : string) (h : HealthData) :
  outcome (parseHealthData w this timeframe) = Return h ->
  exists text result,
    readFileSync w (path_join (exportPath this) "export.xml") = Return text /\
    parseString w text = XmlOk result /\
    extractHealthMetrics w result timeframe = Return h.
Proof.
  unfold parseHealthData, parseWithTimeout, fs_existsSync, fs_statSync,
    fs_readFileSync, call, pure.
  destruct (existsSync w _); io_simpl; [|discriminate].
  destruct (statSync w _) as [size|e]; io_simpl; [|discriminate].
  destruct (_ >? _)%num; io_simpl; [discriminate|].
  destruct (readFileSync w _) as [text|e]; io_simpl; [|discriminate].
  destruct (parseString w text) as [e|result|] eqn:Hp; io_simpl; try discriminate.
  destruct (extractHealthMetrics w result timeframe) as [h'|e] eqn:He; io_simpl;
    [|discriminate].
  intros [= <-]. exists text, result. auto.
Qed.

(** ** The resolver *)

(** Claim C1.  With a fresh snapshot the resolver returns the summary made
    from it; its only calls are existsSync and readFileSync on the snapshot
    file and JSON.parse, whatever the export directory holds. *)
Theorem getHealthSummary_prefers_snapshot (w : World) (this : AppleHealthReader)
  (d : iPhoneHealthData.t) (timeframe : string) :
  fresh_snapshot w this d ->
  getHealthSummary w this timeframe
  = ([EvExists (iCloudPath this); EvReadFile (iCloudPath this); EvJSONParse],
     Return (Data (processiPhoneData d timeframe))) /\
  forallb (snapshot_event this) (trace (getHealthSummary w this timeframe)) = true.
Proof.
  intros Hfresh.
  assert (E : getHealthSummary w this timeframe
    = ([EvExists (iCloudPath this); EvReadFile (iCloudPath this); EvJSONParse],
       Return (Data (processiPhoneData d timeframe)))).
  { unfold getHealthSummary. rewrite (readiPhoneData_fresh w this d Hfresh).
    reflexivity. }
  rewrite E. split; [reflexivity|].
  cbn [trace fst forallb snapshot_event].
  rewrite String.eqb_refl. reflexivity.
Qed.

Lemma getHealthSummary_prefers_snapshot_witness :
  getHealthSummary host_fresh demo_reader "today"
  = ([EvExists icloud_file; EvReadFile icloud_file; EvJSONParse],
     Return (Data (processiPhoneData snapshot_fresh "today"))) /\
  existsSync host_fresh export_file = true.
Proof.
  split; [|reflexivity].
  apply (getHealthSummary_prefers_snapshot host_fresh demo_reader snapshot_fresh "today").
  split; [reflexivity|].
  exists "fresh", "2025-07-18T10:30:00Z", 1752834600000.
  repeat split; try reflexivity. discriminate.
Defined.




(** ** The mock generator *)

(** *** Means *)

Lemma sum_lt (f g : Q -> Q) (D : list Q) :
  D <> [] -> (forall u, In u D -> (f u < g u)%Q) ->
  (fold_right Qplus 0 (map f D) < fold_right Qplus 0 (map g D))%Q.
Proof.
  induction D as [|u D IH]; [congruence|]. intros _ H.
  cbn [map fold_right].
  assert (Hu : (f u < g u)%Q) by (apply H; now left).
  destruct D as [|v D'].
  - cbn [map fold_right]. lra.
  - assert ((fold_right Qplus 0 (map f (v :: D'))
             < fold_right Qplus 0 (map g (v :: D')))%Q).
    { apply IH; [discriminate|]. intros x Hx. apply H. now right. }
    lra.
Qed.

Lemma mean_lt (f g : Q -> Q) (D : list Q) :
  D <> [] -> (forall u, In u D -> (f u < g u)%Q) -> (mean D f < mean D g)%Q.
Proof.
  intros HD H. unfold mean.
  assert (Hn : (0 < inject_Z (Z.of_nat (length D)))%Q).
  { apply (inject_Z_lt 0). destruct D; [congruence | cbn [length]; lia]. }
  unfold Qdiv. apply Qmult_lt_compat_r; [now apply Qinv_lt_0_compat|].
  now apply sum_lt.
Qed.

(** *** One draw, scaled and floored *)

Lemma floor_draw (u : Q) (n : Z) :
  (0 <= u)%Q -> (u < 1)%Q -> 0 < n ->
  0 <= Qfloor (u * inject_Z n) <= n - 1.
Proof.
  intros H0 H1 Hn.
  assert (Hn' : (0 < inject_Z n)%Q) by now apply (inject_Z_lt 0).
  split.
  - apply Qfloor_nonneg. nra.
  - assert (Qfloor (u * inject_Z n) < n); [|lia].
    apply inject_Z_lt.
    apply Qle_lt_trans with (u * inject_Z n)%Q; [apply Qfloor_le | nra].
Qed.

Lemma floor_draw_mono (u : Q) (n m : Z) :
  (0 <= u)%Q -> n <= m -> Qfloor (u * inject_Z n) <= Qfloor (u * inject_Z m).
Proof.
  intros H0 Hnm. apply Qfloor_resp_le. apply inject_Z_le in Hnm. nra.
Qed.

Lemma js_rem_range (seed k : Z) : 0 <= seed -> 0 < k -> 0 <= js_rem seed k < k.
Proof. intros Hs Hk. unfold js_rem. apply Z.rem_bound_pos; lia. Qed.

Lemma Math_random_set (w : World) (u : Q) (k : nat) :
  Math_random (set_random w (fun _ => u)) k = Fin u.
Proof. reflexivity. Qed.

Lemma seed_of_now_range (w : World) : 1 <= seed_of_now w <= 65.
Proof.
  unfold seed_of_now, JSDate.getDate, JSDate.getMonth, JSDate.getHours.
  pose proof (DateFromTime_range (JSDate.LocalTime (LocalTZA w) (now w))).
  pose proof (MonthFromTime_range (JSDate.LocalTime (LocalTZA w) (now w))).
  pose proof (HourFromTime_range (JSDate.LocalTime (LocalTZA w) (now w))).
  lia.
Qed.

Lemma seed_of_today_range (w : World) : 1 <= seed_of_today w <= 42.
Proof.
  unfold seed_of_today, JSDate.getDate, JSDate.getMonth.
  pose proof (DateFromTime_range (JSDate.LocalTime (LocalTZA w) (now w))).
  pose proof (MonthFromTime_range (JSDate.LocalTime (LocalTZA w) (now w))).
  lia.
Qed.

(** *** The fields as functions of their draw *)

Lemma activeCalories_ordered (w : World) (seed : Z) (u : Q) :
  0 <= seed -> (0 <= u)%Q -> (u < 1)%Q ->
  (to_Q (read_field activeCalories (mockData (set_random w (fun _ => u)) seed "today"))
   < to_Q (read_field activeCalories (mockData (set_random w (fun _ => u)) seed "week")))%Q /\
  (to_Q (read_field activeCalories (mockData (set_random w (fun _ => u)) seed "week"))
   < to_Q (read_field activeCalories (mockData (set_random w (fun _ => u)) seed "month")))%Q.
Proof.
  intros Hs H0 H1. set (wu := set_random w (fun _ => u)).
  change (mockData wu seed "today") with (Data (mockData_today wu seed)).
  change (mockData wu seed "week") with (Data (mockData_week wu seed)).
  change (mockData wu seed "month") with (Data (mockData_month wu seed)).
  unfold mockData_today, mockData_week, mockData_month.
  cbn [read_field activeCalories]. unfold wu. rewrite !Math_random_set.
  unfold ofZ. cbn [num_mul Math_floor num_add to_Q]. unfold ofZ. cbn [num_add to_Q].
  pose proof (floor_draw u 200 H0 H1 eq_refl) as F1.
  pose proof (floor_draw u 400 H0 H1 eq_refl) as F2.
  pose proof (floor_draw u 1500 H0 H1 eq_refl) as F3.
  rewrite <- !inject_Z_plus. split; apply inject_Z_lt; lia.
Qed.

Lemma workouts_ordered (w : World) (seed : Z) (u : Q) :
  0 <= seed -> (0 <= u)%Q -> (u < 1)%Q ->
  (to_Q (read_field workouts (mockData (set_random w (fun _ => u)) seed "today"))
   < to_Q (read_field workouts (mockData (set_random w (fun _ => u)) seed "week")))%Q /\
  (to_Q (read_field workouts (mockData (set_random w (fun _ => u)) seed "week"))
   < to_Q (read_field workouts (mockData (set_random w (fun _ => u)) seed "month")))%Q.
Proof.
  intros Hs H0 H1. set (wu := set_random w (fun _ => u)).
  change (mockData wu seed "today") with (Data (mockData_today wu seed)).
  change (mockData wu seed "week") with (Data (mockData_week wu seed)).
  change (mockData wu seed "month") with (Data (mockData_month wu seed)).
  unfold mockData_today, mockData_week, mockData_month.
  cbn [read_field workouts]. unfold wu. rewrite !Math_random_set.
  unfold ofZ. cbn [num_mul Math_floor num_add to_Q]. unfold ofZ. cbn [num_add to_Q].
  pose proof (floor_draw u 3 H0 H1 eq_refl) as F1.
  pose proof (floor_draw u 5 H0 H1 eq_refl) as F2.
  pose proof (js_rem_range seed 3 Hs eq_refl) as R3.
  pose proof (js_rem_range seed 4 Hs eq_refl) as R4.
  rewrite <- !inject_Z_plus.
  destruct (js_rem seed 3 =? 0); cbn [to_Q]; split; apply inject_Z_lt; lia.
Qed.

Lemma steps_reversed_40 (w : World) (u : Q) :
  (0 <= u)%Q -> (u < 1)%Q ->
  (to_Q (read_field steps (mockData (set_random w (fun _ => u)) 40 "month"))
   < to_Q (read_field steps (mockData (set_random w (fun _ => u)) 40 "week")))%Q /\
  (to_Q (read_field steps (mockData (set_random w (fun _ => u)) 40 "week"))
   < to_Q (read_field steps (mockData (set_random w (fun _ => u)) 40 "today")))%Q.
Proof.
  intros H0 H1. set (wu := set_random w (fun _ => u)).
  change (mockData wu 40 "today") with (Data (mockData_today wu 40)).
  change (mockData wu 40 "week") with (Data (mockData_week wu 40)).
  change (mockData wu 40 "month") with (Data (mockData_month wu 40)).
  unfold mockData_today, mockData_week, mockData_month.
  cbn [read_field steps]. unfold wu. rewrite !Math_random_set.
  unfold ofZ. cbn [num_mul Math_floor num_add to_Q]. unfold ofZ. cbn [num_add to_Q].
  pose proof (floor_draw_mono u 1000 1500 H0 ltac:(lia)) as F1.
  pose proof (floor_draw_mono u 1500 4000 H0 ltac:(lia)) as F2.
  rewrite <- !inject_Z_plus. split; apply inject_Z_lt; lia.
Qed.

Lemma round_tenths_lt (x y : Q) :
  (x + (1 # 10) <= y)%Q ->
  (to_Q (Math_round (Fin x * ofZ 10) / ofZ 10)%num
   < to_Q (Math_round (Fin y * ofZ 10) / ofZ 10)%num)%Q.
Proof.
  intros H. unfold ofZ. cbn [num_mul Math_round]. unfold ofZ. cbn [num_div].
  change (Qeq_bool (inject_Z 10) 0) with false. cbv iota. cbn [to_Q].
  unfold Qdiv. apply Qmult_lt_compat_r; [reflexivity|].
  apply inject_Z_lt.
  assert (Qfloor (x * inject_Z 10 + (1 # 2)) + 1 <= Qfloor (y * inject_Z 10 + (1 # 2)));
    [|lia].
  apply Qfloor_ge. rewrite inject_Z_plus.
  pose proof (Qfloor_le (x * inject_Z 10 + (1 # 2))) as Hf.
  change (inject_Z 10) with 10%Q in *. change (inject_Z 1) with 1%Q. lra.
Qed.

Lemma sleep_reversed_40 (w : World) (u : Q) :
  (0 <= u)%Q -> (u < 1)%Q ->
  (to_Q (read_field sleepHours (mockData (set_random w (fun _ => u)) 40 "week"))
   < to_Q (read_field sleepHours (mockData (set_random w (fun _ => u)) 40 "today")))%Q.
Proof.
  intros H0 H1. set (wu := set_random w (fun _ => u)).
  change (mockData wu 40 "today") with (Data (mockData_today wu 40)).
  change (mockData wu 40 "week") with (Data (mockData_week wu 40)).
  unfold mockData_today, mockData_week.
  cbn [read_field sleepHours]. unfold wu. rewrite !Math_random_set.
  change (js_rem 40 3) with 1. change (js_rem 40 2) with 0.
  unfold ofZ at 1 2 3 5 6 7. cbn [num_mul num_add].
  apply round_tenths_lt.
  change (inject_Z 7) with 7%Q. change (inject_Z 1) with 1%Q.
  change (inject_Z 0) with 0%Q. lra.
Qed.

(** *** No field is negative *)

Lemma floor_field_nonneg (u : Q) (n a b : Z) :
  (0 <= u)%Q /\ (u < 1)%Q -> 0 < n -> 0 <= a -> 0 <= b ->
  nonneg (Math_floor (Fin u * ofZ n) + ofZ a + ofZ b)%num.
Proof.
  intros [H0 H1] Hn Ha Hb. unfold ofZ. cbn [num_mul Math_floor]. unfold ofZ.
  cbn [num_add]. eexists. split; [reflexivity|].
  pose proof (floor_draw u n H0 H1 Hn) as F.
  rewrite <- !inject_Z_plus. apply (inject_Z_le 0). lia.
Qed.

Lemma round_field_nonneg (u c a k : Q) (r : Z) :
  (0 <= u)%Q /\ (u < 1)%Q -> (0 <= c)%Q -> (0 <= a)%Q -> (0 <= k)%Q -> 0 <= r ->
  nonneg (Math_round ((Fin u * Fin c + Fin a + ofZ r * Fin k) * ofZ 10) / ofZ 10)%num.
Proof.
  intros [H0 H1] Hc Ha Hk Hr. unfold ofZ. cbn [num_mul num_add Math_round].
  unfold ofZ. cbn [num_div].
  change (Qeq_bool (inject_Z 10) 0) with false. cbv iota.
  eexists. split; [reflexivity|].
  apply Qle_shift_div_l; [reflexivity|]. rewrite Qmult_0_l.
  apply (inject_Z_le 0), Qfloor_nonneg.
  apply (inject_Z_le 0) in Hr. change (inject_Z 0) with 0%Q in Hr.
  change (inject_Z 10) with 10%Q.
  assert (0 <= u * c)%Q by nra. assert (0 <= inject_Z r * k)%Q by nra. lra.
Qed.

(** *** The lookup in the table *)

Lemma inherited_key (timeframe : string) :
  existsb (String.eqb timeframe) Object_prototype_keys = true
  <-> In timeframe Object_prototype_keys.
Proof.
  rewrite existsb_exists. split.
  - intros (x & Hin & E). apply String.eqb_eq in E. now subst.
  - intros H. exists timeframe. split; [exact H | apply String.eqb_refl].
Qed.

Lemma valid_timeframe_spec (timeframe : string) :
  valid_timeframe timeframe = true
  <-> timeframe = "today" \/ timeframe = "week" \/ timeframe = "month".
Proof.
  unfold valid_timeframe. cbn [existsb]. rewrite !orb_true_iff, !String.eqb_eq.
  intuition discriminate.
Qed.

Lemma valid_timeframe_own (timeframe : string) :
  valid_timeframe timeframe = true -> ~ In timeframe Object_prototype_keys.
Proof.
  intros H Hin. apply valid_timeframe_spec in H.
  apply inherited_key in Hin.
  destruct H as [-> | [-> | ->]]; discriminate Hin.
Qed.

(** A key that is not inherited finds one of the three summaries. *)
Lemma mockData_own (w : World) (seed : Z) (timeframe : string) :
  ~ In timeframe Object_prototype_keys ->
  mockData w seed timeframe = Data (mockData_today w seed) \/
  mockData w seed timeframe = Data (mockData_week w seed) \/
  mockData w seed timeframe = Data (mockData_month w seed).
Proof.
  intros Hown. unfold mockData.
  destruct (String.eqb timeframe "today"); [now left|].
  destruct (String.eqb timeframe "week"); [now right; left|].
  destruct (String.eqb timeframe "month"); [now right; right|].
  destruct (existsb (String.eqb timeframe) Object_prototype_keys) eqn:E;
    [|now left].
  apply inherited_key in E. contradiction.
Qed.

(** An inherited key finds the inherited member. *)
Lemma mockData_inherited (w : World) (seed : Z) (timeframe : string) :
  In timeframe Object_prototype_keys ->
  mockData w seed timeframe = Inherited timeframe.
Proof.
  intros Hin. unfold mockData.
  assert (H1 : String.eqb timeframe "today" = false).
  { apply String.eqb_neq. intros ->. apply inherited_key in Hin. discriminate Hin. }
  assert (H2 : String.eqb timeframe "week" = false).
  { apply String.eqb_neq. intros ->. apply inherited_key in Hin. discriminate Hin. }
  assert (H3 : String.eqb timeframe "month" = false).
  { apply String.eqb_neq. intros ->. apply inherited_key in Hin. discriminate Hin. }
  rewrite H1, H2, H3. apply inherited_key in Hin. now rewrite Hin.
Qed.

Section Mock.
Variable w : World.
Variable seed : Z.
Hypothesis draws : forall k, (0 <= random w k)%Q /\ (random w k < 1)%Q.
Hypothesis seed_nonneg : 0 <= seed.

Ltac mock_field :=
  first
    [ apply floor_field_nonneg;
      [ apply draws | reflexivity | try lia; apply js_rem_range; (lia || reflexivity)
      | try lia; apply js_rem_range; (lia || reflexivity) ]
    | apply round_field_nonneg;
      [ apply draws | try discriminate | try discriminate | try discriminate
      | apply js_rem_range; (lia || reflexivity) ] ].

Lemma mockData_today_nonneg : nonneg_summary (mockData_today w seed).
Proof.
  unfold mockData_today, nonneg_summary, Math_random.
  cbn [steps heartRate sleepHours activeCalories workouts resting average max].
  repeat split; try mock_field.
  destruct (js_rem seed 3 =? 0); apply nonneg_ofZ; lia.
Qed.

Lemma mockData_week_nonneg : nonneg_summary (mockData_week w seed).
Proof.
  unfold mockData_week, nonneg_summary, Math_random.
  cbn [steps heartRate sleepHours activeCalories workouts resting average max].
  repeat split; mock_field.
Qed.

Lemma mockData_month_nonneg : nonneg_summary (mockData_month w seed).
Proof.
  unfold mockData_month, nonneg_summary, Math_random.
  cbn [steps heartRate sleepHours activeCalories workouts resting average max].
  repeat split; mock_field.
Qed.

Lemma mockData_nonneg (timeframe : string) :
  ~ In timeframe Object_prototype_keys ->
  exists h, mockData w seed timeframe = Data h /\ nonneg_summary h.
Proof.
  intros Hown.
  destruct (mockData_own w seed timeframe Hown) as [-> | [-> | ->]];
    eexists; (split; [reflexivity|]).
  - apply mockData_today_nonneg.
  - apply mockData_week_nonneg.
  - apply mockData_month_nonneg.
Qed.
End Mock.

(** Claim C9 as stated fails: at 2025-07-18T16:00 the seed is 40, and for
    every sample of draws the expected steps are larger for "today" than
    for "week" and larger for "week" than for "month", and the expected
    sleepHours are larger for "today" than for "week". *)
Lemma mock_steps_and_sleep_not_increasing :
  seed_of_now host_bare = 40 /\
  forall D, unit_draws D ->
    (expected D host_bare 40 "month" steps < expected D host_bare 40 "week" steps)%Q /\
    (expected D host_bare 40 "week" steps < expected D host_bare 40 "today" steps)%Q /\
    (expected D host_bare 40 "week" sleepHours
     < expected D host_bare 40 "today" sleepHours)%Q.
Proof.
  split; [vm_compute; reflexivity|].
  intros D [HD Hu]. unfold expected.
  split; [|split]; apply mean_lt; try exact HD; intros u Hin;
    destruct (Hu u Hin) as [H0 H1].
  - exact (proj1 (steps_reversed_40 host_bare u H0 H1)).
  - exact (proj2 (steps_reversed_40 host_bare u H0 H1)).
  - exact (sleep_reversed_40 host_bare u H0 H1).
Qed.

(** Claim C9, amended.  When every draw of Math.random lies in [0, 1), the
    mock summary of every timeframe (of every string, in fact, that is not
    the name of a member inherited from Object.prototype) is a summary
    without a negative field, with the seed of the clock; and for every
    sample of such draws the expected
    activeCalories and the expected workouts are smaller for "today" than
    for "week" and smaller for "week" than for "month", with the seed with
    and without the hour. *)
Theorem mock_data_contract (w : World) :
  (forall k, (0 <= random w k)%Q /\ (random w k < 1)%Q) ->
  (forall timeframe, ~ In timeframe Object_prototype_keys ->
     exists h, getRealisticMockData w timeframe = Data h /\ nonneg_summary h) /\
  (forall D seed, unit_draws D -> seed = seed_of_now w \/ seed = seed_of_today w ->
     (expected D w seed "today" activeCalories
      < expected D w seed "week" activeCalories)%Q /\
     (expected D w seed "week" activeCalories
      < expected D w seed "month" activeCalories)%Q /\
     (expected D w seed "today" workouts < expected D w seed "week" workouts)%Q /\
     (expected D w seed "week" workouts < expected D w seed "month" workouts)%Q).
Proof.
  intros Hdraws. split.
  - intros timeframe Hown. unfold getRealisticMockData.
    apply mockData_nonneg; [exact Hdraws | | exact Hown].
    pose proof (seed_of_now_range w). lia.
  - intros D seed [HD Hu] Hseed.
    assert (Hs : 0 <= seed).
    { pose proof (seed_of_now_range w). pose proof (seed_of_today_range w).
      destruct Hseed; lia. }
    unfold expected.
    repeat split; apply mean_lt; try exact HD; intros u Hin;
      destruct (Hu u Hin) as [H0 H1].
    + exact (proj1 (activeCalories_ordered w seed u Hs H0 H1)).
    + exact (proj2 (activeCalories_ordered w seed u Hs H0 H1)).
    + exact (proj1 (workouts_ordered w seed u Hs H0 H1)).
    + exact (proj2 (workouts_ordered w seed u Hs H0 H1)).
Qed.

Lemma mock_data_contract_witness :
  (exists h, getRealisticMockData host_bare "month" = Data h /\ nonneg_summary h) /\
  (expected [0; 1 # 4; 1 # 2; 3 # 4] host_bare 40 "today" activeCalories
   < expected [0; 1 # 4; 1 # 2; 3 # 4] host_bare 40 "week" activeCalories)%Q.
Proof.
  assert (Hd : forall k : nat,
             (0 <= random host_bare k)%Q /\ (random host_bare k < 1)%Q)
    by (intros k; split; reflexivity || discriminate).
  destruct (mock_data_contract host_bare Hd) as [A B].
  split; [apply (A "month"); apply valid_timeframe_own; reflexivity|].
  refine (proj1 (B [0; 1 # 4; 1 # 2; 3 # 4]%Q 40 _ _)).
  - split; [discriminate|].
    intros u [<- | [<- | [<- | [<- | []]]]]; split; reflexivity || discriminate.
  - left. vm_compute. reflexivity.
Defined.

(** ** The workout tool *)

Lemma ToIntegerOrInfinity_ofZ (n : Z) : ToIntegerOrInfinity (ofZ n) = n.
Proof. unfold ToIntegerOrInfinity, ofZ, inject_Z; cbn [Qnum Qden]. apply Z.quot_1_r. Qed.

(** Claim C10.  A limit of 0 is replaced by the default 5, as every falsy
    limit is, and all three mock workouts are returned; an integer limit of
    at least 1 returns the first min(limit, 3) workouts. *)
Theorem getWorkoutDetails_limit :
  or_default (Some (ofZ 0)) 5 = ofZ 5 /\
  getWorkoutDetails (Some (ofZ 0)) = mockWorkouts /\
  length (getWorkoutDetails (Some (ofZ 0))) = 3%nat /\
  (forall a : option number,
      missing_or_zero a -> getWorkoutDetails a = mockWorkouts) /\
  (forall n : Z, 1 <= n ->
      getWorkoutDetails (Some (ofZ n)) = firstn (Z.to_nat (Z.min n 3)) mockWorkouts /\
      length (getWorkoutDetails (Some (ofZ n))) = Z.to_nat (Z.min n 3)).
Proof.
  split; [reflexivity|]. split; [reflexivity|]. split; [reflexivity|]. split.
  - intros a Ha. unfold getWorkoutDetails. rewrite (or_default_falsy a 5 Ha). reflexivity.
  - intros n Hn.
    assert (E : getWorkoutDetails (Some (ofZ n))
                = firstn (Z.to_nat (Z.min n 3)) mockWorkouts).
    { unfold getWorkoutDetails, or_default. rewrite truthy_ofZ.
      destruct (Z.eqb_spec n 0) as [->|_]; [lia|]. cbn [negb].
      unfold slice_from_0. rewrite ToIntegerOrInfinity_ofZ.
      destruct (Z.ltb_spec n 0); [lia|]. reflexivity. }
    split; [exact E|]. rewrite E, length_firstn. cbn [length mockWorkouts]. lia.
Qed.

Lemma getWorkoutDetails_limit_witness :
  length (getWorkoutDetails (Some (ofZ 2))) = 2%nat /\
  getWorkoutDetails None = mockWorkouts.
Proof.
  destruct getWorkoutDetails_limit as (_ & _ & _ & A & B).
  split.
  - exact (proj2 (B 2 ltac:(lia))).
  - exact (A None (or_introl eq_refl)).
Defined.

(* ===================================================================== *)
(** * Further properties *)
(* ===================================================================== *)

(** ** Further properties of the three sources *)

(** Property X1.  The reader of the snapshot never throws, and it hands a
    snapshot on exactly when the file is there, readable, an object with a
    non-empty timestamp that parses to a date less than 24 hours before now
    (a date in the future included). *)
Theorem readiPhoneData_exact (w : World) (this : AppleHealthReader) :
  (exists r, outcome (readiPhoneData w this) = Return r) /\
  (forall d, outcome (readiPhoneData w this) = Return (Some d)
             <-> fresh_snapshot w this d).
Proof.
  split.
  - unfold readiPhoneData.
    match goal with |- context [try_catch ?m _] => destruct m as [t [r|e]] end;
      io_simpl; eauto.
  - intros d. split.
    + unfold readiPhoneData, fresh_snapshot, fs_existsSync, fs_readFileSync,
        JSON_parse_, call.
      destruct (existsSync w (iCloudPath this)) eqn:Hex; io_simpl; [|discriminate].
      destruct (readFileSync w (iCloudPath this)) as [data|e] eqn:Hread; io_simpl;
        [|discriminate].
      destruct (JSON_parse w data) as [[| |d']|e] eqn:Hjson; io_simpl;
        try discriminate.
      destruct (iPhoneHealthData.timestamp d') as [ts|] eqn:Hts; io_simpl;
        [|discriminate].
      cbn [truthy_string].
      destruct (String.eqb_spec ts "") as [->|Hne]; io_simpl; [discriminate|].
      destruct (Date_parse w ts) as [t|] eqn:Hdate; [|discriminate].
      rewrite fresh_check.
      destruct (Z.ltb_spec (now w - t) (24 * JSDate.msPerHour)); io_simpl;
        [|discriminate].
      intros [= <-]. split; [reflexivity|].
      exists data, ts, t. repeat split; auto.
    + intros H. rewrite (readiPhoneData_fresh w this d H). reflexivity.
Qed.

(** Property X2.  The check of the export answers true exactly when
    export.xml exists, stat succeeds, the file is opened, its first 1000
    bytes are read, the handle is closed, and what was read holds both
    "HealthData" and "<?xml"; it never throws. *)
Theorem checkForAppleHealthData_exact (w : World) (this : AppleHealthReader) :
  exists b, outcome (checkForAppleHealthData w this) = Return b /\
  (b = true <->
   existsSync w (path_join (healthDataPath this) "export.xml") = true /\
   (exists size,
       statSync w (path_join (healthDataPath this) "export.xml") = Return size) /\
   exists handle firstChunk,
     openSync w (path_join (healthDataPath this) "export.xml") = Return handle /\
     readSync w handle 1000 = Return firstChunk /\
     closeSync w handle = Return tt /\
     includes firstChunk "HealthData" = true /\
     includes firstChunk "<?xml" = true).
Proof.
  unfold checkForAppleHealthData, fs_existsSync, fs_statSync, fs_openSync,
    fs_readSync, fs_closeSync, fs_readdirSync, call.
  set (p := path_join (healthDataPath this) "export.xml").
  destruct (existsSync w p) eqn:Hex; io_simpl.
  - destruct (statSync w p) as [size|e] eqn:Hstat; io_simpl.
    + destruct (openSync w p) as [handle|e] eqn:Hopen; io_simpl.
      * destruct (readSync w handle 1000) as [chunk|e] eqn:Hhead; io_simpl.
        -- destruct (closeSync w handle) as [[]|e] eqn:Hclose; io_simpl.
           ++ destruct (includes chunk "HealthData") eqn:H1;
                destruct (includes chunk "<?xml") eqn:H2; io_simpl;
                eexists; (split; [reflexivity|]);
                (split; [intros E; try discriminate E; eauto 12
                        | intros (_ & _ & h & c & [= <-] & Hr & _ & E1 & E2);
                          rewrite Hhead in Hr; injection Hr as <-; congruence]).
           ++ exists false. split; [reflexivity|].
              split; [discriminate
                     | intros (_ & _ & h & c & [= <-] & _ & Hc & _);
                       rewrite Hclose in Hc; discriminate].
        -- exists false. split; [reflexivity|].
           split; [discriminate
                  | intros (_ & _ & h & c & [= <-] & Hr & _);
                    rewrite Hhead in Hr; discriminate].
      * exists false. split; [reflexivity|].
        split; [discriminate | intros (_ & _ & h & c & E & _); discriminate].
    + exists false. split; [reflexivity|].
      split; [discriminate | intros (_ & (s & E) & _); discriminate].
  - exists false. split.
    + destruct (existsSync w (healthDataPath this)); io_simpl;
        [destruct (readdirSync w (healthDataPath this)); io_simpl|]; reflexivity.
    + split; [discriminate | intros (E & _); discriminate].
Qed.

(** Property X3.  The reader of the export returns a summary exactly when
    export.xml exists, stat reports at most 100 MB, the file is read, xml2js
    calls back with a result in time and the extractor returns the summary
    from it; every failure is thrown wrapped in 'Failed to parse Apple
    Health data': a missing file after one existsSync, a late callback as
    the timeout, and what the extractor throws as it is. *)
Theorem parseHealthData_outcomes (w : World) (this : AppleHealthXMLParser)
  (timeframe : string) :
  (forall h,
      outcome (parseHealthData w this timeframe) = Return h <->
      exists size text result,
        existsSync w (path_join (exportPath this) "export.xml") = true /\
        statSync w (path_join (exportPath this) "export.xml") = Return size /\
        size <= MAX_FILE_SIZE_MB * 1024 * 1024 /\
        readFileSync w (path_join (exportPath this) "export.xml") = Return text /\
        parseString w text = XmlOk result /\
        extractHealthMetrics w result timeframe = Return h) /\
  (forall e, outcome (parseHealthData w this timeframe) = Throw e ->
             exists cause, e = FailedToParse cause) /\
  (existsSync w (path_join (exportPath this) "export.xml") = false ->
   parseHealthData w this timeframe
   = ([EvExists (path_join (exportPath this) "export.xml")],
      Throw (FailedToParse NotFound))) /\
  (forall size text,
      existsSync w (path_join (exportPath this) "export.xml") = true ->
      statSync w (path_join (exportPath this) "export.xml") = Return size ->
      size <= MAX_FILE_SIZE_MB * 1024 * 1024 ->
      readFileSync w (path_join (exportPath this) "export.xml") = Return text ->
      (parseString w text = XmlPending ->
       outcome (parseHealthData w this timeframe)
       = Throw (FailedToParse ParseTimeout)) /\
      (forall result e,
          parseString w text = XmlOk result ->
          extractHealthMetrics w result timeframe = Throw e ->
          outcome (parseHealthData w this timeframe)
          = Throw (FailedToParse e))).
Proof.
  set (p := path_join (exportPath this) "export.xml").
  assert (Hsize : forall size, size <= MAX_FILE_SIZE_MB * 1024 * 1024 ->
                    (ofZ size / 1024 / 1024 >? MAX_FILE_SIZE_MB)%num = false).
  { intros size H. rewrite size_check. apply Z.ltb_ge.
    unfold MAX_FILE_SIZE_MB in H. lia. }
  split; [|split; [|split]].
  - intros h. split.
    + unfold parseHealthData, parseWithTimeout, fs_existsSync, fs_statSync,
        fs_readFileSync, call, pure. fold p.
      destruct (existsSync w p); io_simpl; [|discriminate].
      destruct (statSync w p) as [size|e]; io_simpl; [|discriminate].
      rewrite size_check.
      destruct (Z.ltb_spec 104857600 size); io_simpl; [discriminate|].
      destruct (readFileSync w p) as [text|e]; io_simpl; [|discriminate].
      destruct (parseString w text) as [e|result|] eqn:Hp; io_simpl;
        try discriminate.
      destruct (extractHealthMetrics w result timeframe) as [h'|e] eqn:He;
        io_simpl; [|discriminate].
      intros [= <-]. exists size, text, result.
      unfold MAX_FILE_SIZE_MB. repeat split; auto; lia.
    + intros (size & text & result & Hex & Hstat & Hle & Hread & Hp & He).
      unfold parseHealthData, parseWithTimeout, fs_existsSync, fs_statSync,
        fs_readFileSync, call, pure. fold p.
      io_step Hex. io_step Hstat. rewrite (Hsize size Hle). io_simpl.
      io_step Hread. io_step Hp. io_step He. reflexivity.
  - intros e. unfold parseHealthData.
    match goal with |- context [try_catch ?m _] => destruct m as [t [h|c]] end;
      io_simpl; [discriminate|].
    intros [= <-]. eauto.
  - intros Hex. unfold parseHealthData, fs_existsSync, call. fold p.
    io_step Hex. reflexivity.
  - intros size text Hex Hstat Hle Hread. split.
    + intros Hp.
      unfold parseHealthData, parseWithTimeout, fs_existsSync, fs_statSync,
        fs_readFileSync, call, pure. fold p.
      io_step Hex. io_step Hstat. rewrite (Hsize size Hle). io_simpl.
      io_step Hread. io_step Hp. reflexivity.
    + intros result e Hp He.
      unfold parseHealthData, parseWithTimeout, fs_existsSync, fs_statSync,
        fs_readFileSync, call, pure. fold p.
      io_step Hex. io_step Hstat. rewrite (Hsize size Hle). io_simpl.
      io_step Hread. io_step Hp. io_step He. reflexivity.
Qed.

Lemma parseHealthData_outcomes_witness :
  outcome (parseHealthData host_broken_export (xmlParser demo_reader) "today")
  = Throw (FailedToParse XmlError) /\
  exists cause, FailedToParse XmlError = FailedToParse cause.
Proof.
  assert (E : outcome (parseHealthData host_broken_export (xmlParser demo_reader)
                         "today") = Throw (FailedToParse XmlError))
    by (vm_compute; reflexivity).
  split; [exact E|].
  exact (proj1 (proj2 (parseHealthData_outcomes host_broken_export
                         (xmlParser demo_reader) "today")) _ E).
Defined.

(** *** The shape of each step of the resolver *)

Ltac shape_none :=
  eexists _, _; split; [reflexivity|]; split; [cbn; lia|];
  split; [cbn; lia|]; split; [reflexivity|]; intros ? [=].

Lemma readiPhoneData_shape (w : World) (this : AppleHealthReader) :
  exists t r,
    readiPhoneData w this = (t, Return r) /\
    (length t <= 3)%nat /\
    (count_event is_json_parse t <= 1)%nat /\
    count_event is_xml_parse t = 0%nat /\
    (forall d, r = Some d -> fresh_snapshot w this d).
Proof.
  unfold readiPhoneData, fresh_snapshot, fs_existsSync, fs_readFileSync,
    JSON_parse_, call.
  destruct (existsSync w (iCloudPath this)) eqn:Hex; io_simpl; [|shape_none].
  destruct (readFileSync w (iCloudPath this)) as [data|e] eqn:Hread; io_simpl;
    [|shape_none].
  destruct (JSON_parse w data) as [[| |d']|e] eqn:Hjson; io_simpl;
    try shape_none.
  destruct (iPhoneHealthData.timestamp d') as [ts|] eqn:Hts; io_simpl;
    [|shape_none].
  cbn [truthy_string].
  destruct (String.eqb_spec ts "") as [->|Hne]; io_simpl; [shape_none|].
  destruct (Date_parse w ts) as [t|] eqn:Hdate; [|shape_none].
  rewrite fresh_check.
  destruct (Z.ltb_spec (now w - t) (24 * JSDate.msPerHour)); io_simpl;
    [|shape_none].
  eexists _, _. split; [reflexivity|]. split; [cbn; lia|].
  split; [cbn; lia|]. split; [reflexivity|].
  intros d [= <-]. split; [reflexivity|]. exists data, ts, t. repeat split; auto.
Qed.

Ltac shape_check :=
  eexists _, _; split; [reflexivity|]; split; [cbn; lia|];
  split; [reflexivity|]; split; [reflexivity|]; split; [reflexivity|].

Lemma checkForAppleHealthData_shape (w : World) (this : AppleHealthReader) :
  exists t b,
    checkForAppleHealthData w this = (t, Return b) /\
    (length t <= 5)%nat /\
    count_event is_json_parse t = 0%nat /\
    count_event is_xml_parse t = 0%nat /\
    existsb full_parse_event t = false /\
    (b = true ->
     existsSync w (path_join (healthDataPath this) "export.xml") = true /\
     exists size,
       statSync w (path_join (healthDataPath this) "export.xml") = Return size).
Proof.
  unfold checkForAppleHealthData, fs_existsSync, fs_statSync, fs_openSync,
    fs_readSync, fs_closeSync, fs_readdirSync, call.
  set (p := path_join (healthDataPath this) "export.xml").
  destruct (existsSync w p) eqn:Hex; io_simpl.
  - destruct (statSync w p) as [size|e] eqn:Hstat; io_simpl;
      [|shape_check; discriminate].
    destruct (openSync w p) as [handle|e]; io_simpl;
      [|shape_check; discriminate].
    destruct (readSync w handle 1000) as [chunk|e]; io_simpl;
      [|shape_check; discriminate].
    destruct (closeSync w handle) as [[]|e]; io_simpl;
      [|shape_check; discriminate].
    destruct (includes chunk "HealthData" && includes chunk "<?xml"); io_simpl;
      shape_check; [eauto | discriminate].
  - destruct (existsSync w (healthDataPath this)); io_simpl;
      [destruct (readdirSync w (healthDataPath this)); io_simpl|];
      shape_check; discriminate.
Qed.

Lemma parseHealthData_shape (w : World) (this : AppleHealthXMLParser)
  (timeframe : string) :
  (length (trace (parseHealthData w this timeframe)) <= 4)%nat /\
  count_event is_json_parse (trace (parseHealthData w this timeframe)) = 0%nat /\
  (count_event is_xml_parse (trace (parseHealthData w this timeframe)) <= 1)%nat.
Proof.
  unfold parseHealthData, parseWithTimeout, fs_existsSync, fs_statSync,
    fs_readFileSync, call, pure.
  destruct (existsSync w _); io_simpl; [|cbn; lia].
  destruct (statSync w _) as [size|e]; io_simpl; [|cbn; lia].
  destruct (_ >? _)%num; io_simpl; [cbn; lia|].
  destruct (readFileSync w _) as [text|e]; io_simpl; [|cbn; lia].
  destruct (parseString w text) as [e|result|]; io_simpl; try (cbn; lia).
  destruct (extractHealthMetrics w result timeframe); io_simpl; cbn; lia.
Qed.

(** The four ways through the resolver. *)
Lemma getHealthSummary_run (w : World) (this : AppleHealthReader)
  (timeframe : string) (t1 : list Event) (r : option iPhoneHealthData.t)
  (t2 : list Event) (b : bool) :
  readiPhoneData w this = (t1, Return r) ->
  checkForAppleHealthData w this = (t2, Return b) ->
  getHealthSummary w this timeframe
  = match r with
    | Some d => (t1, Return (Data (processiPhoneData d timeframe)))
    | None =>
        if b then
          match parseHealthData w (xmlParser this) timeframe with
          | (t3, Return h) => ((t1 ++ t2 ++ t3)%list, Return (Data h))
          | (t3, Throw _) =>
              ((t1 ++ t2 ++ t3)%list, Return (getRealisticMockData w timeframe))
          end
        else ((t1 ++ t2)%list, Return (getRealisticMockData w timeframe))
    end.
Proof.
  intros H1 H2. unfold getHealthSummary, parseAppleHealthData.
  rewrite H1. destruct r as [d|]; io_simpl; [now rewrite app_nil_r|].
  rewrite H2. destruct b; io_simpl;
    [|rewrite ?app_nil_r; reflexivity].
  destruct (parseHealthData w (xmlParser this) timeframe) as [t3 [h|e]]; io_simpl;
    rewrite ?app_nil_r, <- ?app_assoc; reflexivity.
Qed.

(** Property X4.  Whatever the host does, the summary of the resolver comes
    from one of its three sources: the fresh snapshot when there is one;
    otherwise the extractor, on a result that xml2js gave for the text of
    the export; or the mock generator. *)
Theorem getHealthSummary_sources (w : World) (this : AppleHealthReader)
  (timeframe : string) :
  (exists d, fresh_snapshot w this d /\
             outcome (getHealthSummary w this timeframe)
             = Return (Data (processiPhoneData d timeframe))) \/
  (exists text result h,
      readFileSync w (path_join (exportPath (xmlParser this)) "export.xml")
      = Return text /\
      parseString w text = XmlOk result /\
      extractHealthMetrics w result timeframe = Return h /\
      outcome (getHealthSummary w this timeframe) = Return (Data h)) \/
  outcome (getHealthSummary w this timeframe)
  = Return (getRealisticMockData w timeframe).
Proof.
  destruct (readiPhoneData_shape w this) as (t1 & r & H1 & _ & _ & _ & Hr).
  destruct (checkForAppleHealthData_shape w this) as (t2 & b & H2 & _).
  rewrite (getHealthSummary_run w this timeframe t1 r t2 b H1 H2).
  destruct r as [d|].
  - left. exists d. split; [now apply Hr | reflexivity].
  - right. destruct b; [|right; reflexivity].
    destruct (parseHealthData w (xmlParser this) timeframe) as [t3 [h|e]] eqn:Hp;
      [|right; reflexivity].
    left. destruct (parseHealthData_returns w (xmlParser this) timeframe h)
      as (text & result & Hread & Hx & He); [now rewrite Hp|].
    exists text, result, h. auto.
Qed.

(** Property X5.  With no snapshot file, a reader whose parser looks where
    the reader looks, and an export that passes the header check, is within
    the ceiling and parses, the resolver returns the summary that the
    extractor makes of the parsed document; when the extractor throws
    instead, it returns the mock summary. *)
Theorem getHealthSummary_from_export (w : World) (this : AppleHealthReader)
  (timeframe : string) (size handle : Z) (firstChunk text : string)
  (result : XmlResult) :
  reader_ok this ->
  existsSync w (iCloudPath this) = false ->
  existsSync w (path_join (healthDataPath this) "export.xml") = true ->
  statSync w (path_join (healthDataPath this) "export.xml") = Return size ->
  size <= MAX_FILE_SIZE_MB * 1024 * 1024 ->
  openSync w (path_join (healthDataPath this) "export.xml") = Return handle ->
  readSync w handle 1000 = Return firstChunk ->
  closeSync w handle = Return tt ->
  includes firstChunk "HealthData" = true ->
  includes firstChunk "<?xml" = true ->
  readFileSync w (path_join (healthDataPath this) "export.xml") = Return text ->
  parseString w text = XmlOk result ->
  outcome (getHealthSummary w this timeframe)
  = match extractHealthMetrics w result timeframe with
    | Return h => Return (Data h)
    | Throw _ => Return (getRealisticMockData w timeframe)
    end.
Proof.
  intros Hok Habs Hex Hstat Hle Hopen Hhead Hclose Hi1 Hi2 Hread Hp.
  rewrite (getHealthSummary_run w this timeframe _ None
             [EvExists (path_join (healthDataPath this) "export.xml");
              EvStat (path_join (healthDataPath this) "export.xml");
              EvOpen (path_join (healthDataPath this) "export.xml");
              EvRead handle 1000; EvClose handle]
             true (readiPhoneData_absent w this Habs)).
  - unfold parseHealthData, parseWithTimeout, fs_existsSync, fs_statSync,
      fs_readFileSync, call, pure. rewrite Hok.
    io_step Hex. io_step Hstat. rewrite size_check.
    replace (104857600 <? size) with false
      by (symmetry; apply Z.ltb_ge; unfold MAX_FILE_SIZE_MB in Hle; lia).
    io_simpl. io_step Hread. io_step Hp.
    destruct (extractHealthMetrics w result timeframe); reflexivity.
  - unfold checkForAppleHealthData, fs_existsSync, fs_statSync, fs_openSync,
      fs_readSync, fs_closeSync, call.
    io_step Hex. io_step Hstat. io_step Hopen. io_step Hhead. io_step Hclose.
    rewrite Hi1, Hi2. reflexivity.
Qed.

Lemma getHealthSummary_from_export_witness :
  outcome (getHealthSummary host_plausible demo_reader "today")
  = Return (Data (mkHealthData (ofZ 8420)
                    (mkHeartRate (ofZ 58) (ofZ 84) (ofZ 95))
                    (Fin (15 # 2)) (ofZ 310) (ofZ 1))) /\
  outcome (getHealthSummary host_crowded demo_reader "today")
  = Return (getRealisticMockData host_crowded "today").
Proof.
  split.
  - refine (eq_trans
              (getHealthSummary_from_export host_plausible demo_reader "today" 2048 4
                 (xml_head ++ "plausible") (xml_head ++ "plausible") export_plausible
                 _ _ _ _ _ _ _ _ _ _ _ _) _);
      (vm_compute; reflexivity) || (unfold MAX_FILE_SIZE_MB; lia) || idtac.
  - refine (eq_trans
              (getHealthSummary_from_export host_crowded demo_reader "today" 2048 4
                 (xml_head ++ "plausible") (xml_head ++ "plausible") export_plausible
                 _ _ _ _ _ _ _ _ _ _ _ _) _);
      (vm_compute; reflexivity) || (unfold MAX_FILE_SIZE_MB; lia) || idtac.
Defined.

(** Property X6.  With no snapshot file and an export above the ceiling, the
    resolver returns the mock summary, and its calls read nothing but the
    first 1000 bytes of the export: no readFileSync, no xml2js. *)
Theorem getHealthSummary_oversized_export (w : World) (this : AppleHealthReader)
  (timeframe : string) (size : Z) :
  reader_ok this ->
  existsSync w (iCloudPath this) = false ->
  statSync w (path_join (healthDataPath this) "export.xml") = Return size ->
  MAX_FILE_SIZE_MB * 1024 * 1024 < size ->
  outcome (getHealthSummary w this timeframe)
  = Return (getRealisticMockData w timeframe) /\
  existsb full_parse_event (trace (getHealthSummary w this timeframe)) = false.
Proof.
  intros Hok Habs Hstat Hbig.
  destruct (checkForAppleHealthData_shape w this)
    as (t2 & b & H2 & _ & _ & _ & Hquiet & Hb).
  rewrite (getHealthSummary_run w this timeframe _ None t2 b
             (readiPhoneData_absent w this Habs) H2).
  destruct b.
  - destruct (Hb eq_refl) as (Hex & _).
    assert (E : parseHealthData w (xmlParser this) timeframe
                = ([EvExists (path_join (healthDataPath this) "export.xml");
                    EvStat (path_join (healthDataPath this) "export.xml")],
                   Throw (FailedToParse
                            (FileTooLarge (inject_Z size / 1024 / 1024)%Q)))).
    { unfold parseHealthData, fs_existsSync, fs_statSync, call. rewrite Hok.
      io_step Hex. io_step Hstat. rewrite size_check.
      replace (104857600 <? size) with true
        by (symmetry; apply Z.ltb_lt; unfold MAX_FILE_SIZE_MB in Hbig; lia).
      reflexivity. }
    rewrite E. split; [reflexivity|].
    cbn [trace fst app existsb full_parse_event orb].
    rewrite existsb_app, Hquiet. reflexivity.
  - split; [reflexivity|].
    cbn [trace fst app existsb full_parse_event orb]. exact Hquiet.
Qed.

Lemma getHealthSummary_oversized_export_witness :
  outcome (getHealthSummary host_huge demo_reader "week")
  = Return (getRealisticMockData host_huge "week") /\
  existsb full_parse_event (trace (getHealthSummary host_huge demo_reader "week"))
  = false.
Proof.
  apply (getHealthSummary_oversized_export host_huge demo_reader "week" 209715200);
    reflexivity.
Defined.

(** Property X7.  One request makes at most twelve host calls (three for
    the snapshot, five for the check of the export, four for its parse),
    and runs JSON.parse at most once and xml2js at most once: no source is
    tried twice. *)
Theorem getHealthSummary_effort (w : World) (this : AppleHealthReader)
  (timeframe : string) :
  (length (trace (getHealthSummary w this timeframe)) <= 12)%nat /\
  (count_event is_json_parse (trace (getHealthSummary w this timeframe)) <= 1)%nat /\
  (count_event is_xml_parse (trace (getHealthSummary w this timeframe)) <= 1)%nat.
Proof.
  destruct (readiPhoneData_shape w this) as (t1 & r & H1 & L1 & J1 & X1 & _).
  destruct (checkForAppleHealthData_shape w this)
    as (t2 & b & H2 & L2 & J2 & X2 & _).
  destruct (parseHealthData_shape w (xmlParser this) timeframe) as (L3 & J3 & X3).
  rewrite (getHealthSummary_run w this timeframe t1 r t2 b H1 H2).
  unfold count_event in *.
  destruct r as [d|]; [cbn [trace fst]; lia|].
  destruct b.
  - destruct (parseHealthData w (xmlParser this) timeframe) as [t3 [h|e]];
      cbn [trace fst] in *; rewrite !filter_app, !length_app; lia.
  - cbn [trace fst]. rewrite !filter_app, !length_app. lia.
Qed.

(** ** Further properties of the extractor *)

(** Property X8.  Without a heart-rate record the triple is the fallback
    60/80/120, whatever resting-heart-rate records there are: they are read
    only when a heart-rate record exists. *)
Theorem extractHeartRate_without_samples (w : World) (l : list HealthRecord) :
  Forall (fun r => type r <> HeartRate_) l ->
  extractHeartRate w l = Return (mkHeartRate (ofZ 60) (ofZ 80) (ofZ 120)).
Proof.
  intros H. unfold extractHeartRate.
  change (has_type "HKQuantityTypeIdentifierHeartRate") with (has_type HeartRate_).
  rewrite (filter_has_type_nil HeartRate_ l H). reflexivity.
Qed.

Lemma extractHeartRate_without_samples_witness :
  extractHeartRate host_bare
    [record_of RestingHeartRate "58" "2025-07-18T07:00:00Z" "2025-07-18T07:00:00Z"]
  = Return (mkHeartRate (ofZ 60) (ofZ 80) (ofZ 120)).
Proof.
  apply extractHeartRate_without_samples.
  constructor; [discriminate | constructor].
Defined.

(** *** The sort of the resting records *)





Lemma In_sort_insert_back (w : World) (a x : HealthRecord) (l : list HealthRecord) :
  x = a \/ In x l -> In x (sort_insert w a l).
Proof.
  induction l as [|b l IH]; cbn [sort_insert].
  - intros [-> | []]. now left.
  - destruct (_ >? _)%num; cbn [In]; intuition.
Qed.





(** *** A value that is not a number *)

Lemma fold_add_NaN_acc (xs : list number) : fold_left num_add xs NaN = NaN.
Proof. induction xs as [|x xs IH]; [reflexivity | exact IH]. Qed.

Lemma fold_add_NaN (xs : list number) (a : number) :
  In NaN xs -> fold_left num_add xs a = NaN.
Proof.
  revert a. induction xs as [|x xs IH]; intros a; [intros []|].
  intros [-> | H]; cbn [fold_left].
  - destruct a; cbn [num_add]; apply fold_add_NaN_acc.
  - now apply IH.
Qed.

(** Property X10.  One step record (or energy record) in the list whose
    value parseFloat cannot read turns the whole total into NaN. *)
Theorem extract_totals_NaN (w : World) (l : list HealthRecord) (r : HealthRecord) :
  In r l -> parseFloat w (value r) = NaN ->
  (type r = StepCount -> extractSteps w l = NaN) /\
  (type r = ActiveEnergyBurned -> extractActiveCalories w l = NaN).
Proof.
  intros Hin Hnan. split; intros Hty.
  - unfold extractSteps.
    rewrite (fold_left_through_map num_add (fun r => parseFloat w (value r))).
    apply fold_add_NaN. rewrite <- Hnan.
    apply (in_map (fun r0 => parseFloat w (value r0))).
    apply filter_In. split; [exact Hin | now apply has_type_true].
  - unfold extractActiveCalories.
    rewrite (fold_left_through_map num_add (fun r => parseFloat w (value r))).
    rewrite fold_add_NaN; [reflexivity|]. rewrite <- Hnan.
    apply (in_map (fun r0 => parseFloat w (value r0))).
    apply filter_In. split; [exact Hin | now apply has_type_true].
Qed.

Lemma extract_totals_NaN_witness :
  extractSteps host_bare
    [record_of StepCount "8420" "2025-07-18T07:00:00Z" "2025-07-18T07:00:00Z";
     record_of StepCount "n/a" "2025-07-18T07:00:00Z" "2025-07-18T07:00:00Z"]
  = NaN.
Proof.
  refine (proj1 (extract_totals_NaN host_bare _
                   (record_of StepCount "n/a" "2025-07-18T07:00:00Z"
                      "2025-07-18T07:00:00Z") _ _) _);
    [right; left; reflexivity | reflexivity | reflexivity].
Defined.

(** *** Records outside the window *)



Lemma new_york_steady (w : World) : zone_steady (set_zone w new_york).
Proof.
  intros t t' b b'. cbn [LocalTZA set_zone]. unfold new_york.
  change JSDate.msPerDay with 86400000. change JSDate.msPerHour with 3600000.
  destruct b, b';
    repeat match goal with |- context [if ?c then _ else _] => destruct c end;
    lia.
Qed.

Lemma starts_arith (D d d' o o' : Z) :
  d + 1 <= d' -> o' - o < 86400000 ->
  d * 86400000 - o <= d' * 86400000 - o'.
Proof. lia. Qed.

(** Property X12.  In a zone whose offsets stay within a day of each other
    the windows are nested: the start of "month" is not after the start of
    "week", which is not after the start of "today", and all three end at
    the same instant.  Now lies in the window of "today" when the offset in
    force now is the one by which midnight and the end of the day are
    read (no change of the clocks in between).  A timeframe that is none
    of the three gets the window from now itself to the end of the day. *)
Theorem getDateRange_nested (w : World) :
  zone_steady w ->
  fst (getDateRange w "month") <= fst (getDateRange w "week") /\
  fst (getDateRange w "week") <= fst (getDateRange w "today") /\
  (forall timeframe timeframe',
      snd (getDateRange w timeframe) = snd (getDateRange w timeframe')) /\
  (LocalTZA w (midnight_before w 0) false = LocalTZA w (now w) true ->
   fst (getDateRange w "today") <= now w) /\
  (LocalTZA w (end_of_today w) false = LocalTZA w (now w) true ->
   forall timeframe, now w <= snd (getDateRange w timeframe)) /\
  (forall timeframe, valid_timeframe timeframe = false ->
                     fst (getDateRange w timeframe) = now w).
Proof.
  intros Hz.
  pose proof (landing_day w 7 Hz) as L7.
  pose proof (landing_day w 30 Hz) as L30.
  rewrite (start_back_value w "month" 30), (start_back_value w "week" 7) by auto.
  rewrite start_today_value.
  revert L7 L30.
  generalize (JSDate.Day (local w (JSDate.UTC (LocalTZA w) (same_time_before w 7)))).
  generalize (JSDate.Day (local w (JSDate.UTC (LocalTZA w) (same_time_before w 30)))).
  intros d30 d7 L7 L30.
  assert (Hday : JSDate.Day (local w (now w)) * 86400000 <= local w (now w)
                 < JSDate.Day (local w (now w)) * 86400000 + 86400000).
  { unfold JSDate.Day. change JSDate.msPerDay with 86400000.
    generalize (local w (now w)). intros x. Z.div_mod_to_equations. lia. }
  unfold midnight_before, end_of_today, midnight_before, JSDate.UTC.
  replace ((JSDate.Day (local w (now w)) - 0) * JSDate.msPerDay)
    with (JSDate.Day (local w (now w)) * JSDate.msPerDay) by lia.
  change JSDate.msPerDay with 86400000 in *.
  split; [|split; [|split; [|split; [|split]]]].
  - apply (starts_arith 0); [lia | apply (Hz _ _ false false)].
  - apply (starts_arith 0); [lia | apply (Hz _ _ false false)].
  - intros timeframe timeframe'. now rewrite !getDateRange_end.
  - intros Ho. rewrite Ho.
    assert (E : local w (now w) = now w + LocalTZA w (now w) true) by reflexivity.
    rewrite E in Hday at 2. lia.
  - intros Ho timeframe. rewrite end_value.
    unfold JSDate.UTC, end_of_today, midnight_before.
    change JSDate.msPerDay with 86400000.
    replace ((JSDate.Day (local w (now w)) - 0) * 86400000)
      with (JSDate.Day (local w (now w)) * 86400000) by lia.
    rewrite Ho.
    assert (E : local w (now w) = now w + LocalTZA w (now w) true) by reflexivity.
    rewrite E in Hday at 2. lia.
  - intros timeframe H. rewrite (getDateRange_other w timeframe H). reflexivity.
Qed.

(** Without its condition now may lie outside the window: in Santiago at
    2025-04-06T03:30:00Z it is 23:30 of 5 April for the second time, and
    the window of "today" has ended with the first 23:59:59.999, half an
    hour before. *)
Lemma now_after_the_end :
  zone_steady (set_zone host_fresh santiago) /\
  snd (getDateRange
         (set_zone (set_now host_fresh (JSDate.Date_UTC 2025 3 6 3 30 0 0)) santiago)
         "today")
  = JSDate.Date_UTC 2025 3 6 2 59 59 999.
Proof.
  split; [|vm_compute; reflexivity].
  intros t t' b b'. cbn [LocalTZA set_zone]. unfold santiago.
  change JSDate.msPerDay with 86400000. change JSDate.msPerHour with 3600000.
  destruct b, b';
    repeat match goal with |- context [if ?c then _ else _] => destruct c end;
    lia.
Qed.

(** In New York at 2025-03-12T15:00:00Z the window of "week" reaches back
    over the change of the clocks of 9 March. *)
Lemma getDateRange_nested_witness :
  fst (getDateRange
         (set_zone (set_now host_fresh (JSDate.Date_UTC 2025 2 12 15 0 0 0)) new_york)
         "month")
  <= fst (getDateRange
            (set_zone (set_now host_fresh (JSDate.Date_UTC 2025 2 12 15 0 0 0))
                      new_york) "week").
Proof.
  exact (proj1 (getDateRange_nested
                  (set_zone (set_now host_fresh (JSDate.Date_UTC 2025 2 12 15 0 0 0))
                            new_york)
                  (new_york_steady _))).
Defined.

(** Property X13.  The seed of the mock data lies between 1 and 65 for every
    clock and zone (between 1 and 42 in the versions that leave the hour
    out), since getDate is in 1..31, getMonth in 0..11 and getHours in
    0..23. *)
Theorem mock_seed_range (w : World) :
  1 <= JSDate.getDate (LocalTZA w) (now w) <= 31 /\
  0 <= JSDate.getMonth (LocalTZA w) (now w) <= 11 /\
  0 <= JSDate.getHours (LocalTZA w) (now w) <= 23 /\
  1 <= seed_of_now w <= 65 /\ 1 <= seed_of_today w <= 42.
Proof.
  unfold seed_of_now, seed_of_today, JSDate.getDate, JSDate.getMonth,
    JSDate.getHours.
  pose proof (DateFromTime_range (JSDate.LocalTime (LocalTZA w) (now w))).
  pose proof (MonthFromTime_range (JSDate.LocalTime (LocalTZA w) (now w))).
  pose proof (HourFromTime_range (JSDate.LocalTime (LocalTZA w) (now w))).
  lia.
Qed.

Lemma floor_field_range (u : Q) (n a b : Z) :
  (0 <= u)%Q /\ (u < 1)%Q -> 0 < n ->
  exists z, (Math_floor (Fin u * ofZ n) + ofZ a + ofZ b)%num = Fin (inject_Z z) /\
            a + b <= z <= n - 1 + a + b.
Proof.
  intros [H0 H1] Hn. unfold ofZ. cbn [num_mul Math_floor]. unfold ofZ.
  cbn [num_add]. pose proof (floor_draw u n H0 H1 Hn) as F.
  exists (Qfloor (u * inject_Z n) + a + b). split; [|lia].
  now rewrite !inject_Z_plus.
Qed.

Lemma lt_num_Z (x y : Z) : x < y -> lt_num (Fin (inject_Z x)) (Fin (inject_Z y)).
Proof.
  intros H. exists (inject_Z x), (inject_Z y).
  split; [reflexivity|]. split; [reflexivity|]. now apply inject_Z_lt.
Qed.

Lemma mockData_heartRate_ordered (w : World) (seed : Z) :
  0 <= seed ->
  (forall k, (0 <= random w k)%Q /\ (random w k < 1)%Q) ->
  heartRate_ordered (mockData_today w seed) /\
  heartRate_ordered (mockData_week w seed) /\
  heartRate_ordered (mockData_month w seed).
Proof.
  intros Hseed Hd.
  pose proof (js_rem_range seed 3 Hseed eq_refl).
  pose proof (js_rem_range seed 4 Hseed eq_refl).
  pose proof (js_rem_range seed 5 Hseed eq_refl).
  pose proof (js_rem_range seed 6 Hseed eq_refl).
  pose proof (js_rem_range seed 7 Hseed eq_refl).
  pose proof (js_rem_range seed 8 Hseed eq_refl).
  pose proof (js_rem_range seed 10 Hseed eq_refl).
  unfold heartRate_ordered. split; [|split].
  - unfold mockData_today, Math_random. cbn [heartRate resting average max].
    destruct (floor_field_range (random w 1) 8 50 (js_rem seed 5) (Hd _) eq_refl)
      as (a & -> & Ha).
    destruct (floor_field_range (random w 2) 15 75 (js_rem seed 8) (Hd _) eq_refl)
      as (b & -> & Hb).
    destruct (floor_field_range (random w 3) 25 145 (js_rem seed 10) (Hd _) eq_refl)
      as (c & -> & Hc).
    split; apply lt_num_Z; lia.
  - unfold mockData_week, Math_random. cbn [heartRate resting average max].
    destruct (floor_field_range (random w 7) 6 52 (js_rem seed 4) (Hd _) eq_refl)
      as (a & -> & Ha).
    destruct (floor_field_range (random w 8) 12 76 (js_rem seed 6) (Hd _) eq_refl)
      as (b & -> & Hb).
    destruct (floor_field_range (random w 9) 20 150 (js_rem seed 8) (Hd _) eq_refl)
      as (c & -> & Hc).
    split; apply lt_num_Z; lia.
  - unfold mockData_month, Math_random. cbn [heartRate resting average max].
    destruct (floor_field_range (random w 14) 4 53 (js_rem seed 3) (Hd _) eq_refl)
      as (a & -> & Ha).
    destruct (floor_field_range (random w 15) 8 77 (js_rem seed 5) (Hd _) eq_refl)
      as (b & -> & Hb).
    destruct (floor_field_range (random w 16) 15 155 (js_rem seed 7) (Hd _) eq_refl)
      as (c & -> & Hc).
    split; apply lt_num_Z; lia.
Qed.

Lemma mockData_ordered (w : World) (seed : Z) (timeframe : string) :
  0 <= seed ->
  (forall k, (0 <= random w k)%Q /\ (random w k < 1)%Q) ->
  ~ In timeframe Object_prototype_keys ->
  exists h, mockData w seed timeframe = Data h /\ heartRate_ordered h.
Proof.
  intros Hseed Hd Hown.
  destruct (mockData_heartRate_ordered w seed Hseed Hd) as (A & B & C).
  destruct (mockData_own w seed timeframe Hown) as [-> | [-> | ->]]; eauto.
Qed.

(** Property X14.  With the draws of Math.random in [0, 1), the mock
    generator, with the seed of the last version and with the seed of the
    earlier ones, returns for every timeframe, and for every string that
    is not the name of a member inherited from Object.prototype, a summary
    whose heart-rate triple is strictly ordered, resting below average
    below max; for the name of an inherited member it returns that member,
    which has no heart rate at all. *)
Theorem mock_heartRate_ordered (w : World) (timeframe : string) :
  (forall k, (0 <= random w k)%Q /\ (random w k < 1)%Q) ->
  (~ In timeframe Object_prototype_keys ->
   (exists h, getRealisticMockData w timeframe = Data h /\ heartRate_ordered h) /\
   (exists h, V2.getRealisticMockData w timeframe = Data h /\ heartRate_ordered h)) /\
  (In timeframe Object_prototype_keys ->
   getRealisticMockData w timeframe = Inherited timeframe /\
   V2.getRealisticMockData w timeframe = Inherited timeframe).
Proof.
  intros Hd. split.
  - intros Hown. split.
    + apply mockData_ordered; [|exact Hd|exact Hown].
      pose proof (seed_of_now_range w). lia.
    + apply mockData_ordered; [|exact Hd|exact Hown].
      pose proof (seed_of_today_range w). lia.
  - intros Hin. split; apply mockData_inherited; exact Hin.
Qed.

Lemma mock_heartRate_ordered_witness :
  (exists h, getRealisticMockData host_bare "week" = Data h /\ heartRate_ordered h) /\
  getRealisticMockData host_bare "constructor" = Inherited "constructor".
Proof.
  assert (Hd : forall k : nat,
             (0 <= random host_bare k)%Q /\ (random host_bare k < 1)%Q)
    by (intros k; split; reflexivity || discriminate).
  split.
  - refine (proj1 (proj1 (mock_heartRate_ordered host_bare "week" Hd) _)).
    apply valid_timeframe_own. reflexivity.
  - refine (proj1 (proj2 (mock_heartRate_ordered host_bare "constructor" Hd) _)).
    left. reflexivity.
Defined.

(** ** Further properties of the workout tool *)

(** Property X15.  Whatever the limit, the tool returns a prefix of the
    three mock workouts; a negative integer limit -k does not empty the list
    but drops the last k workouts. *)
Theorem getWorkoutDetails_prefix :
  (forall a : option number,
      exists n, (n <= 3)%nat /\ getWorkoutDetails a = firstn n mockWorkouts) /\
  (forall k : Z, 1 <= k ->
      getWorkoutDetails (Some (ofZ (- k)))
      = firstn (Z.to_nat (3 - k)) mockWorkouts).
Proof.
  split.
  - intros a. unfold getWorkoutDetails, slice_from_0.
    change (Z.of_nat (length mockWorkouts)) with 3.
    generalize (ToIntegerOrInfinity (or_default a 5)). intros e.
    exists (Z.to_nat (if e <? 0 then Z.max (3 + e) 0 else Z.min e 3)).
    split; [|reflexivity].
    destruct (Z.ltb_spec e 0); lia.
  - intros k Hk. unfold getWorkoutDetails, or_default. rewrite truthy_ofZ.
    destruct (Z.eqb_spec (- k) 0) as [E|_]; [lia|]. cbn [negb].
    unfold slice_from_0. rewrite ToIntegerOrInfinity_ofZ.
    destruct (Z.ltb_spec (- k) 0); [|lia].
    change (Z.of_nat (length mockWorkouts)) with 3. f_equal. lia.
Qed.

(** ** Construction of the reader *)

Lemma first_with_export_spec (w : World) (paths : list string) :
  (exists before p after,
      paths = (before ++ p :: after)%list /\
      Forall (fun q => holds_export w q = false) before /\
      holds_export w p = true /\
      first_with_export w paths = (map probe (before ++ [p])%list, Return (Some p)))
  \/ (Forall (fun q => holds_export w q = false) paths /\
      first_with_export w paths = (map probe paths, Return None)).
Proof.
  induction paths as [|q paths IH].
  - right. split; [constructor | reflexivity].
  - cbn [first_with_export]. unfold fs_existsSync, call.
    destruct (existsSync w (path_join q "export.xml")) eqn:Hq; io_simpl.
    + left. exists [], q, paths. repeat split; auto.
    + destruct IH as [(before & p & after & -> & Hb & Hp & ->) | (Hall & ->)];
        io_simpl.
      * left. exists (q :: before), p, after. repeat split; auto.
      * right. split; [constructor; auto | reflexivity].
Qed.

(** Property X16.  findCorrectHealthPath probes the six candidates in order
    and stops at the first that holds export.xml, which it returns; when
    none does it has probed all six and returns the first candidate, the
    fixed path under C:\Users\rt, whatever USERPROFILE is. It never throws. *)
Theorem findCorrectHealthPath_first (w : World) (USERPROFILE : option string) :
  (exists before p after,
      possiblePaths USERPROFILE = (before ++ p :: after)%list /\
      Forall (fun q => holds_export w q = false) before /\
      holds_export w p = true /\
      findCorrectHealthPath w USERPROFILE
      = (map probe (before ++ [p])%list, Return p))
  \/ (Forall (fun q => holds_export w q = false) (possiblePaths USERPROFILE) /\
      findCorrectHealthPath w USERPROFILE
      = (map probe (possiblePaths USERPROFILE),
         Return "C:\Users\rt\Documents\apple_health_export\apple_health_export")).
Proof.
  unfold findCorrectHealthPath.
  destruct (first_with_export_spec w (possiblePaths USERPROFILE))
    as [(before & p & after & E & Hb & Hp & ->) | (Hall & ->)]; io_simpl.
  - left. exists before, p, after. rewrite app_nil_r. auto.
  - right. split; [exact Hall|]. rewrite app_nil_r. reflexivity.
Qed.

Lemma findCorrectHealthPath_returns (w : World) (USERPROFILE : option string) :
  exists t p, findCorrectHealthPath w USERPROFILE = (t, Return p).
Proof.
  unfold findCorrectHealthPath.
  destruct (first_with_export_spec w (possiblePaths USERPROFILE))
    as [(before & p & after & E & Hb & Hp & ->) | (Hall & ->)]; io_simpl; eauto.
Qed.

(** Property X17.  The parser of a reader looks where the reader looks: this
    holds for every reader the constructor builds (which never throws, and
    makes no host call when a non-empty path is given), and both setters
    keep it. The earlier setHealthDataPath, which leaves the parser alone,
    breaks it as soon as the path changes. *)
Theorem reader_ok_maintained (w : World) (USERPROFILE : option string) :
  (forall given, exists t this,
      new_AppleHealthReader w USERPROFILE given = (t, Return this) /\
      reader_ok this /\
      (forall p, given = Some p -> p <> "" -> t = [] /\ healthDataPath this = p)) /\
  (forall this p, reader_ok (setHealthDataPath this p)) /\
  (forall this p, reader_ok this -> reader_ok (setiCloudPath this p)) /\
  (forall this p, reader_ok this -> p <> healthDataPath this ->
                  ~ reader_ok (V2.setHealthDataPath this p)).
Proof.
  split; [|split; [|split]].
  - intros given. unfold new_AppleHealthReader.
    destruct (findCorrectHealthPath_returns w USERPROFILE) as (t & q & Hf).
    destruct given as [p|].
    + destruct (String.eqb_spec p "") as [->|Hne].
      * rewrite Hf. io_simpl. eexists _, _. split; [reflexivity|].
        split; [reflexivity|]. intros p [= <-] H. now destruct H.
      * io_simpl. eexists _, _. split; [reflexivity|].
        split; [reflexivity|]. intros p' [= <-] _. split; reflexivity.
    + rewrite Hf. io_simpl. eexists _, _. split; [reflexivity|].
      split; [reflexivity|]. intros p [=].
  - intros this p. reflexivity.
  - intros this p H. exact H.
  - intros this p H Hne. unfold reader_ok, V2.setHealthDataPath.
    cbn [xmlParser healthDataPath]. rewrite H. congruence.
Qed.

(** ** The tool handler *)

Lemma getHealthSummary_returns (w : World) (this : AppleHealthReader)
  (timeframe : string) :
  exists t h, getHealthSummary w this timeframe = (t, Return h).
Proof.
  destruct (readiPhoneData_shape w this) as (t1 & r & H1 & _).
  destruct (checkForAppleHealthData_shape w this) as (t2 & b & H2 & _).
  rewrite (getHealthSummary_run w this timeframe t1 r t2 b H1 H2).
  destruct r as [d|]; [eauto|].
  destruct b; [|eauto].
  destruct (parseHealthData w (xmlParser this) timeframe) as [t3 [h|e]]; eauto.
Qed.

(** For a key that is not inherited the resolver returns a summary. *)
Lemma getHealthSummary_data (w : World) (this : AppleHealthReader)
  (timeframe : string) :
  ~ In timeframe Object_prototype_keys ->
  exists t h, getHealthSummary w this timeframe = (t, Return (Data h)).
Proof.
  intros Hown.
  assert (Hm : exists h, getRealisticMockData w timeframe = Data h).
  { unfold getRealisticMockData.
    destruct (mockData_own w (seed_of_now w) timeframe Hown) as [-> | [-> | ->]];
      eauto. }
  destruct Hm as (m & Hm).
  destruct (readiPhoneData_shape w this) as (t1 & r & H1 & _).
  destruct (checkForAppleHealthData_shape w this) as (t2 & b & H2 & _).
  rewrite (getHealthSummary_run w this timeframe t1 r t2 b H1 H2), Hm.
  destruct r as [d|]; [eauto|].
  destruct b; [|eauto].
  destruct (parseHealthData w (xmlParser this) timeframe) as [t3 [h|e]]; eauto.
Qed.

(** Property X18.  The tool answers with a summary exactly when the
    timeframe is one of 'today', 'week' and 'month', whatever the host does:
    the summary is then the one the resolver returns, after the resolver's
    host calls. Any other timeframe is answered with the error text before
    any host call is made. *)
Theorem tool_getHealthSummary_validates (w : World)
  (message_of : Error -> string) (healthReader : AppleHealthReader)
  (timeframe : string) :
  ((timeframe = "today" \/ timeframe = "week" \/ timeframe = "month") <->
   exists healthData,
     snd (tool_getHealthSummary w message_of healthReader timeframe)
     = SummaryText timeframe healthData) /\
  (forall healthData,
      snd (tool_getHealthSummary w message_of healthReader timeframe)
      = SummaryText timeframe healthData ->
      getHealthSummary w healthReader timeframe
      = (fst (tool_getHealthSummary w message_of healthReader timeframe),
         Return (Data healthData))) /\
  (forall text,
      snd (tool_getHealthSummary w message_of healthReader timeframe)
      = ErrorText text ->
      fst (tool_getHealthSummary w message_of healthReader timeframe) = []).
Proof.
  rewrite <- valid_timeframe_spec. unfold tool_getHealthSummary.
  destruct (valid_timeframe timeframe) eqn:Hv; cbn [negb fst snd].
  - destruct (getHealthSummary_data w healthReader timeframe
                (valid_timeframe_own timeframe Hv)) as (t & h & ->).
    cbn [fst snd].
    split; [split; [eauto | reflexivity]|].
    split; [intros d [= <-]; reflexivity | intros text [=]].
  - split; [split; [discriminate | intros (d & [=])]|].
    split; [intros d [=] | reflexivity].
Qed.

(** ** The earlier versions *)

(** Property X19.  The first version of the resolver looks whether
    export.xml exists and returns the mock summary either way: one
    existsSync is its only host call, and it never throws. *)
Theorem V1_getHealthSummary_mock (w : World) (healthDataPath timeframe : string) :
  V1.getHealthSummary w healthDataPath timeframe
  = ([EvExists (path_join healthDataPath "export.xml")],
     Return (mockData w (seed_of_today w) timeframe)).
Proof.
  unfold V1.getHealthSummary, V1.checkForAppleHealthData,
    V1.parseAppleHealthData, V1.getRealisticMockData, fs_existsSync, call.
  destruct (existsSync w (path_join healthDataPath "export.xml")); io_simpl;
    reflexivity.
Qed.

Lemma V2_getHealthSummary_run (w : World) (this : AppleHealthReader)
  (timeframe : string) (t1 : list Event) (r : option iPhoneHealthData.t) :
  readiPhoneData w this = (t1, Return r) ->
  V2.getHealthSummary w this timeframe
  = match r with
    | Some d => (t1, Return (Data (processiPhoneData d timeframe)))
    | None =>
        if existsSync w (path_join (healthDataPath this) "export.xml") then
          match parseHealthData w (xmlParser this) timeframe with
          | (t3, Return h) =>
              ((t1 ++ probe (healthDataPath this) :: t3)%list, Return (Data h))
          | (t3, Throw _) =>
              ((t1 ++ probe (healthDataPath this) :: t3)%list,
               Return (V2.getRealisticMockData w timeframe))
          end
        else ((t1 ++ [probe (healthDataPath this)])%list,
              Return (V2.getRealisticMockData w timeframe))
    end.
Proof.
  intros H1. unfold V2.getHealthSummary, V2.checkForAppleHealthData,
    V2.parseAppleHealthData, fs_existsSync, call, probe.
  rewrite H1. destruct r as [d|]; io_simpl; [now rewrite app_nil_r|].
  destruct (existsSync w (path_join (healthDataPath this) "export.xml"));
    io_simpl; [|rewrite ?app_nil_r; reflexivity].
  destruct (parseHealthData w (xmlParser this) timeframe) as [t3 [h|e]]; io_simpl;
    rewrite ?app_nil_r; reflexivity.
Qed.

(** Property X20.  The version of the resolver without the header check
    never throws either, and it returns what the last version returns
    whenever that comes from real data: from a fresh snapshot (then with the
    same host calls), or from an export that the last version's check
    accepts and the parser reads. *)
Theorem V2_getHealthSummary_agrees (w : World) (this : AppleHealthReader)
  (timeframe : string) :
  (exists h, outcome (V2.getHealthSummary w this timeframe) = Return h) /\
  (forall d, fresh_snapshot w this d ->
             V2.getHealthSummary w this timeframe
             = getHealthSummary w this timeframe) /\
  (forall h,
      outcome (readiPhoneData w this) = Return None ->
      outcome (checkForAppleHealthData w this) = Return true ->
      outcome (parseHealthData w (xmlParser this) timeframe) = Return h ->
      outcome (V2.getHealthSummary w this timeframe) = Return (Data h) /\
      outcome (getHealthSummary w this timeframe) = Return (Data h)).
Proof.
  destruct (readiPhoneData_shape w this) as (t1 & r & H1 & _ & _ & _ & Hr).
  destruct (checkForAppleHealthData_shape w this)
    as (t2 & b & H2 & _ & _ & _ & _ & Hb).
  rewrite (V2_getHealthSummary_run w this timeframe t1 r H1).
  rewrite (getHealthSummary_run w this timeframe t1 r t2 b H1 H2).
  rewrite H1, H2. unfold outcome. cbn [snd].
  split; [|split].
  - destruct r as [d|]; [cbn [snd]; eauto|].
    destruct (existsSync w _); [|cbn [snd]; eauto].
    destruct (parseHealthData w (xmlParser this) timeframe) as [t3 [h|e]];
      cbn [snd]; eauto.
  - intros d Hd. rewrite (readiPhoneData_fresh w this d Hd) in H1.
    injection H1 as <- <-. reflexivity.
  - intros h [= ->] [= ->] Hp. destruct (Hb eq_refl) as (Hex & _). rewrite Hex.
    destruct (parseHealthData w (xmlParser this) timeframe) as [t3 [h'|e]];
      cbn [snd] in Hp; [|discriminate].
    injection Hp as ->. split; reflexivity.
Qed.

(** Property X21.  The draft of the parser against the guarded one: whenever
    the guarded parser returns a summary the draft returns the same one;
    with the export present and readable the draft makes its three calls
    whatever the size, and its promise settles as the callback of xml2js
    does: rejected with the error of xml2js as it is, settled with what the
    extractor returns or throws, or left pending when xml2js never calls
    back.  So what the draft rejects with is either wrapped in 'Failed to
    parse Apple Health data', or the error of xml2js, or what the extractor
    threw. *)
Theorem Draft_parseHealthData_unguarded (w : World) (this : AppleHealthXMLParser)
  (timeframe : string) :
  (forall h, outcome (parseHealthData w this timeframe) = Return h ->
             snd (Draft.parseHealthData w this timeframe) = Some (Return h)) /\
  (forall text,
      existsSync w (path_join (exportPath this) "export.xml") = true ->
      readFileSync w (path_join (exportPath this) "export.xml") = Return text ->
      Draft.parseHealthData w this timeframe
      = ([EvExists (path_join (exportPath this) "export.xml");
          EvReadFile (path_join (exportPath this) "export.xml");
          EvParseString],
         match parseString w text with
         | XmlErr err => Some (Throw err)
         | XmlOk result => Some (extractHealthMetrics w result timeframe)
         | XmlPending => None
         end)) /\
  (forall e, snd (Draft.parseHealthData w this timeframe) = Some (Throw e) ->
             (exists cause, e = FailedToParse cause) \/
             (exists text, parseString w text = XmlErr e) \/
             (exists text result,
                 parseString w text = XmlOk result /\
                 extractHealthMetrics w result timeframe = Throw e)).
Proof.
  set (p := path_join (exportPath this) "export.xml").
  split; [|split].
  - intros h. unfold parseHealthData, parseWithTimeout, Draft.parseHealthData,
      fs_existsSync, fs_statSync, fs_readFileSync, call, pure. fold p.
    destruct (existsSync w p); io_simpl; [|discriminate].
    destruct (statSync w p) as [size|e]; io_simpl; [|discriminate].
    destruct (_ >? _)%num; io_simpl; [discriminate|].
    destruct (readFileSync w p) as [text|e]; io_simpl; [|discriminate].
    destruct (parseString w text) as [e|result|]; io_simpl; try discriminate.
    destruct (extractHealthMetrics w result timeframe) as [h'|e]; io_simpl;
      [|discriminate].
    intros [= <-]. reflexivity.
  - intros text Hex Hread. unfold Draft.parseHealthData, fs_existsSync,
      fs_readFileSync, call. fold p.
    rewrite Hex, Hread. io_simpl. reflexivity.
  - intros e. unfold Draft.parseHealthData, fs_existsSync, fs_readFileSync, call.
    fold p.
    destruct (existsSync w p); io_simpl; [|intros [= <-]; eauto].
    destruct (readFileSync w p) as [text|c]; io_simpl; [|intros [= <-]; eauto].
    destruct (parseString w text) as [err|result|] eqn:Hp; cbn [snd];
      try discriminate.
    + intros [= <-]. eauto.
    + intros [= He]. right. right. eauto.
Qed.

(** ** The summary of the resolver *)




Section MockValid.
Variable w : World.
Variable seed : Z.
Hypothesis draws : forall k, (0 <= random w k)%Q /\ (random w k < 1)%Q.
Hypothesis seed_nonneg : 0 <= seed.







End MockValid.





